(** * MathMind presentation flow: a shallow embedding of
      [handlePresentationFlow] (App component) and of the slide-image
      service ([services/geminiService.ts]).

    JavaScript values are modelled as the program has them:
    - a string is its sequence of UTF-16 code units ([JsString]);
    - a layout number is an IEEE binary64 ([float], Rocq's primitive
      floats), so [10 - 0.5 * 2] and [1.1 + 2.8 + 0.1] are computed with
      the rounding the browser performs;
    - the result of [parseInt] is [NaN] or an integer ([JsInt]). *)

From Stdlib Require Import ZArith NArith List Bool Lia String Ascii PrimFloat.
Import ListNotations.

Set Warnings "-inexact-float,-register-all".

(* ================================================================== *)
(** ** JavaScript strings *)
(* ================================================================== *)

Module Js.

Local Open Scope N_scope.

Definition code_unit := N.
Definition JsString := list code_unit.

(** An ASCII literal of the source as code units. *)
Definition lit (s : string) : JsString :=
  map N_of_ascii (list_ascii_of_string s).

Definition cu_eqb : code_unit -> code_unit -> bool := N.eqb.

Fixpoint str_eqb (a b : JsString) : bool :=
  match a, b with
  | [], [] => true
  | x :: a', y :: b' => cu_eqb x y && str_eqb a' b'
  | _, _ => false
  end.

(** [between lo hi c]: lo <= c <= hi. *)
Definition between (lo hi c : code_unit) : bool :=
  N.leb lo c && N.leb c hi.

Definition is_digit (c : code_unit) : bool := between 48 57 c.
Definition is_lower (c : code_unit) : bool := between 97 122 c.
Definition is_upper (c : code_unit) : bool := between 65 90 c.

(** A string is truthy when it is not empty. *)
Definition truthy (s : JsString) : bool :=
  match s with [] => false | _ :: _ => true end.

(** [x] with [x : string | null] used as a condition. *)
Definition truthy_opt (s : option JsString) : bool :=
  match s with None => false | Some s => truthy s end.

(** [String.prototype.startsWith]. *)
Fixpoint startsWith (s p : JsString) : bool :=
  match p, s with
  | [], _ => true
  | c :: p', d :: s' => cu_eqb c d && startsWith s' p'
  | _ :: _, [] => false
  end.

(** [String.prototype.includes]. *)
Fixpoint includes (s p : JsString) : bool :=
  startsWith s p ||
  match s with
  | [] => false
  | _ :: s' => includes s' p
  end.

(** The members of the class [[a-z0-9]] under the [i] flag of a regular
    expression without the [u] flag: the canonicalisation of a code unit
    never maps a code unit above 127 to one below 128, so exactly the
    ASCII letters and digits match. *)
Definition is_alnum (c : code_unit) : bool :=
  is_lower c || is_upper c || is_digit c.

Definition underscore : code_unit := 95.

(** [s.replace(/[^a-z0-9]/gi, '_')]: without the [u] flag the pattern is
    matched code unit by code unit, and every match is replaced. *)
Definition replace_non_alnum (s : JsString) : JsString :=
  map (fun c => if is_alnum c then c else underscore) s.

(** [String.prototype.toLowerCase] on ASCII.  The flow applies it to the
    output of [replace_non_alnum] only, whose code units are ASCII letters,
    digits and underscores (lemma [replace_non_alnum_ascii]); other code
    units are left as they are. *)
Definition toLowerCase (s : JsString) : JsString :=
  map (fun c => if is_upper c then c + 32 else c) s.

(* ------------------------------------------------------------------ *)
(** *** [parseInt] *)

(** The result of [parseInt]: [NaN] or an integer.  Values beyond 2^53 are
    rounded by the engine; rounding is monotone and fixes 1 and 20, so the
    comparisons of the flow read the same on the exact integer. *)
Inductive JsInt := NaN | Int (z : Z).

Definition isNaN (n : JsInt) : bool :=
  match n with NaN => true | Int _ => false end.

(** [n < k] and [n > k]; a comparison with [NaN] is false. *)
Definition lt (n : JsInt) (k : Z) : bool :=
  match n with NaN => false | Int z => Z.ltb z k end.
Definition gt (n : JsInt) (k : Z) : bool :=
  match n with NaN => false | Int z => Z.ltb k z end.

(** StrWhiteSpaceChar: WhiteSpace and LineTerminator of ECMAScript. *)
Definition is_whitespace (c : code_unit) : bool :=
  between 9 13 c || cu_eqb c 32 || cu_eqb c 160 || cu_eqb c 5760 ||
  between 8192 8202 c || cu_eqb c 8232 || cu_eqb c 8233 ||
  cu_eqb c 8239 || cu_eqb c 8287 || cu_eqb c 12288 || cu_eqb c 65279.

Fixpoint trimStart (s : JsString) : JsString :=
  match s with
  | c :: s' => if is_whitespace c then trimStart s' else s
  | [] => []
  end.

(** The value of a code unit as a digit of radix [r], if it is one. *)
Definition digit_value (r : Z) (c : code_unit) : option Z :=
  let v :=
    if is_digit c then Some (Z.of_N c - 48)%Z
    else if is_lower c then Some (Z.of_N c - 97 + 10)%Z
    else if is_upper c then Some (Z.of_N c - 65 + 10)%Z
    else None in
  match v with
  | Some d => if Z.ltb d r then Some d else None
  | None => None
  end.

(** The longest prefix of radix-[r] digits, read left to right: [acc] is
    the value so far and [seen] tells whether a digit was read. *)
Fixpoint digits (r : Z) (s : JsString) (seen : bool) (acc : Z) : option Z :=
  match s with
  | c :: s' =>
      match digit_value r c with
      | Some d => digits r s' true (acc * r + d)%Z
      | None => if seen then Some acc else None
      end
  | [] => if seen then Some acc else None
  end.

(** [parseInt(input)] with no radix argument (ECMAScript 19.2.5): leading
    white space is dropped, then a sign, then [0x]/[0X] selects radix 16,
    otherwise radix 10; the longest digit prefix is the value and an empty
    prefix gives [NaN]. *)
Definition parseInt (input : JsString) : JsInt :=
  let str := trimStart input in
  let sign :=
    match str with
    | c :: _ => if cu_eqb c 45 then (-1)%Z else 1%Z
    | [] => 1%Z
    end in
  let str :=
    match str with
    | c :: rest => if cu_eqb c 43 || cu_eqb c 45 then rest else str
    | [] => str
    end in
  let radix_str :=
    match str with
    | c0 :: c1 :: rest =>
        if cu_eqb c0 48 && (cu_eqb c1 120 || cu_eqb c1 88)
        then (16%Z, rest) else (10%Z, str)
    | _ => (10%Z, str)
    end in
  match digits (fst radix_str) (snd radix_str) false 0 with
  | None => NaN
  | Some mathInt => Int (sign * mathInt)
  end.

End Js.

(* ================================================================== *)
(** ** The presentation library (pptxgenjs), as the flow uses it *)
(* ================================================================== *)

(** The library is an external dependency.  A presentation is modelled by
    what the flow does to it: the slides in the order of [addSlide], and
    on each slide the objects in the order of [addText], [addImage] and
    [addShape], each with the option object it was given. *)
Module Pptx.
Import Js.
Local Open Scope string_scope.
Local Open Scope list_scope.

(** A JavaScript value of an option object. *)
Inductive Value :=
| Null
| Num (f : float)
| Str (s : JsString)
| Bool (b : bool)
| Obj (fields : list (string * Value)).

Definition Props := list (string * Value).

(** Property read [o.k]; [None] is [undefined]. *)
Fixpoint get (k : string) (o : Props) : option Value :=
  match o with
  | [] => None
  | (k', v) :: o' => if String.eqb k k' then Some v else get k o'
  end.

Definition of_opt (s : option JsString) : Value :=
  match s with None => Null | Some s => Str s end.

(** The first argument of [addText]: a string, or an array of runs
    [{ text, options }]. *)
Inductive Text :=
| Plain (s : JsString)
| Runs (rs : list (JsString * Props)).

Inductive ShapeType := rect.

Inductive SlideObject :=
| text (t : Text) (opts : Props)
| image (opts : Props)
| shape (ty : ShapeType) (opts : Props).

Record Slide := mkSlide {
  background : option Props;
  objects : list SlideObject;
  notes : list JsString
}.

Record Pres := mkPres {
  rtlMode : bool;
  layout : option JsString;
  slides : list Slide
}.

(** [new PptxGenJS()]. *)
Definition newPres : Pres :=
  {| rtlMode := false; layout := None; slides := [] |}.

Definition set_rtlMode (b : bool) (p : Pres) : Pres :=
  {| rtlMode := b; layout := layout p; slides := slides p |}.

Definition set_layout (l : JsString) (p : Pres) : Pres :=
  {| rtlMode := rtlMode p; layout := Some l; slides := slides p |}.

(** [pres.addSlide()] appends an empty slide and returns a reference to
    it: its position in the presentation. *)
Definition addSlide (p : Pres) : nat * Pres :=
  (List.length (slides p),
   {| rtlMode := rtlMode p; layout := layout p;
      slides := slides p ++ [mkSlide None [] []] |}).

Fixpoint update_nth {A} (n : nat) (f : A -> A) (l : list A) : list A :=
  match l, n with
  | [], _ => []
  | a :: l', O => f a :: l'
  | a :: l', S n' => a :: update_nth n' f l'
  end.

(** A mutation through a slide reference. *)
Definition onSlide (h : nat) (f : Slide -> Slide) (p : Pres) : Pres :=
  {| rtlMode := rtlMode p; layout := layout p;
     slides := update_nth h f (slides p) |}.

Definition add_object (o : SlideObject) (s : Slide) : Slide :=
  {| background := background s; objects := objects s ++ [o];
     notes := notes s |}.

Definition set_background (h : nat) (bg : Props) : Pres -> Pres :=
  onSlide h (fun s =>
    {| background := Some bg; objects := objects s; notes := notes s |}).

Definition addText (h : nat) (t : Text) (opts : Props) : Pres -> Pres :=
  onSlide h (add_object (text t opts)).

Definition addImage (h : nat) (opts : Props) : Pres -> Pres :=
  onSlide h (add_object (image opts)).

Definition addShape (h : nat) (ty : ShapeType) (opts : Props) : Pres -> Pres :=
  onSlide h (add_object (shape ty opts)).

Definition addNotes (h : nat) (n : JsString) : Pres -> Pres :=
  onSlide h (fun s =>
    {| background := background s; objects := objects s;
       notes := notes s ++ [n] |}).

(** The option object of a slide object, and its bounding box
    [(x, y, w, h)]. *)
Definition options (o : SlideObject) : Props :=
  match o with
  | text _ opts => opts
  | image opts => opts
  | shape _ opts => opts
  end.

Definition box (o : SlideObject) :
  option Value * option Value * option Value * option Value :=
  let p := options o in (get "x" p, get "y" p, get "w" p, get "h" p).

End Pptx.

(* ================================================================== *)
(** ** The deck built by [handlePresentationFlow] (step 3, Build PPTX) *)
(* ================================================================== *)

Module Deck.
Import Js Pptx.
Local Open Scope string_scope.
Local Open Scope list_scope.

(** A slide record of [PresentationData]. *)
Record SlideData := mkSlideData {
  sd_title : JsString;
  sd_bullets : list JsString;
  sd_examples : list JsString;
  sd_imageDescription : JsString;
  sd_speakerNotes : JsString
}.

Record PresentationData := mkPresentationData {
  pd_title : JsString;
  pd_slides : list SlideData
}.

(** An element of [slidesWithImages]: [{ ...slide, imageBase64 }]. *)
Record SlideWithImage := mkSlideWithImage {
  title : JsString;
  bullets : list JsString;
  examples : list JsString;
  imageDescription : JsString;
  speakerNotes : JsString;
  imageBase64 : option JsString
}.

Definition withImage (s : SlideData) (img : option JsString) : SlideWithImage :=
  {| title := sd_title s; bullets := sd_bullets s;
     examples := sd_examples s;
     imageDescription := sd_imageDescription s;
     speakerNotes := sd_speakerNotes s; imageBase64 := img |}.

(** Layout constants. *)
Definition SLIDE_WIDTH : float := 10.
Definition SLIDE_HEIGHT : float := 5.625.
Definition MARGIN : float := 0.5.

(** Content area grid. *)
Definition contentY : float := 1.1.
Definition contentHeight : float := 2.8.
Definition imageWidth : float := 3.2.
Definition textWidth : float :=
  (SLIDE_WIDTH - (MARGIN * 2) - imageWidth - 0.2)%float.
Definition textX : float := (SLIDE_WIDTH - MARGIN - textWidth)%float.
Definition imageX : float := MARGIN.
Definition examplesY : float := (contentY + contentHeight + 0.1)%float.
Definition examplesHeight : float :=
  (SLIDE_HEIGHT - examplesY - MARGIN)%float.

(** The Arabic literals of the source, as UTF-16 code units:
    the attribution line of the title slide, the caption of the fallback
    box ("no image") and the label of the examples band ("examples:"). *)
Definition attribution : JsString :=
  [1578; 1605; 32; 1575; 1604; 1573; 1606; 1588; 1575; 1569; 32; 1576;
   1608; 1575; 1587; 1591; 1577; 32]%N ++ lit "MathMind AI".
Definition noImageCaption : JsString :=
  [1604; 1575; 32; 1578; 1608; 1580; 1583; 32; 1589; 1608; 1585; 1577]%N.
Definition examplesLabel : JsString :=
  [1571; 1605; 1579; 1604; 1577; 58]%N.

(** The title slide. *)
Definition titleSlide (deckTitle : JsString) (pres : Pres) : Pres :=
  let '(titleSlide, pres) := addSlide pres in
  let pres := set_background titleSlide [("color", Str (lit "F1F5F9"))] pres in
  let pres := addText titleSlide (Plain deckTitle)
    [("x", Num 0.5); ("y", Num 2.0); ("w", Str (lit "90%"));
     ("fontSize", Num 36); ("align", Str (lit "center"));
     ("color", Str (lit "0F172A")); ("bold", Bool true);
     ("rtl", Bool true)] pres in
  addText titleSlide (Plain attribution)
    [("x", Num 0.5); ("y", Num 3.5); ("w", Str (lit "90%"));
     ("fontSize", Num 18); ("align", Str (lit "center"));
     ("color", Str (lit "475569")); ("rtl", Bool true)] pres.

(** The body of [slidesWithImages.forEach(s => ...)]: one content slide. *)
Definition contentSlide (s : SlideWithImage) (pres : Pres) : Pres :=
  let '(slide, pres) := addSlide pres in
  let pres := set_background slide [("color", Str (lit "FFFFFF"))] pres in
  (* 1. title area *)
  let pres := addText slide (Plain (title s))
    [("x", Num MARGIN); ("y", Num 0.3);
     ("w", Num (SLIDE_WIDTH - (MARGIN * 2))); ("h", Num 0.7);
     ("fontSize", Num 24); ("bold", Bool true);
     ("color", Str (lit "4F46E5")); ("valign", Str (lit "middle"));
     ("rtl", Bool true); ("align", Str (lit "right"))] pres in
  (* 2. image on the left, or the fallback box *)
  let pres :=
    if truthy_opt (imageBase64 s) then
      addImage slide
        [("data", of_opt (imageBase64 s));
         ("x", Num imageX); ("y", Num contentY);
         ("w", Num imageWidth); ("h", Num contentHeight);
         ("sizing", Obj [("type", Str (lit "contain"));
                         ("w", Num imageWidth); ("h", Num contentHeight)])]
        pres
    else
      let pres := addShape slide rect
        [("x", Num imageX); ("y", Num contentY);
         ("w", Num imageWidth); ("h", Num contentHeight);
         ("fill", Obj [("color", Str (lit "F1F5F9"))])] pres in
      addText slide (Plain noImageCaption)
        [("x", Num imageX); ("y", Num contentY);
         ("w", Num imageWidth); ("h", Num contentHeight);
         ("fontSize", Num 10); ("align", Str (lit "center"));
         ("color", Str (lit "94A3B8"))] pres in
  (* 3. bullet points on the right *)
  let bullets := map (fun b =>
    (b, [("fontSize", Num 16); ("color", Str (lit "334155"));
         ("breakLine", Bool true); ("bullet", Bool true);
         ("inset", Num 5); ("rtl", Bool true);
         ("align", Str (lit "right"))])) (bullets s) in
  let pres := addText slide (Runs bullets)
    [("x", Num textX); ("y", Num contentY);
     ("w", Num textWidth); ("h", Num contentHeight);
     ("lineSpacing", Num 24); ("valign", Str (lit "top"));
     ("shrinkText", Bool true); ("rtl", Bool true);
     ("align", Str (lit "right"))] pres in
  (* 4. examples at the bottom *)
  let pres :=
    if Nat.ltb 0 (List.length (examples s)) then
      let pres := addText slide (Plain examplesLabel)
        [("x", Num MARGIN); ("y", Num examplesY);
         ("w", Num textWidth); ("h", Num 0.3);
         ("fontSize", Num 14); ("bold", Bool true);
         ("color", Str (lit "0F172A")); ("rtl", Bool true);
         ("align", Str (lit "right"))] pres in
      let examples := map (fun e =>
        (e, [("fontSize", Num 14); ("color", Str (lit "475569"));
             ("bullet", Obj [("type", Str (lit "number"))]);
             ("rtl", Bool true); ("align", Str (lit "right"))]))
        (examples s) in
      addText slide (Runs examples)
        [("x", Num MARGIN); ("y", Num (examplesY + 0.3));
         ("w", Num (SLIDE_WIDTH - (MARGIN * 2)));
         ("h", Num (examplesHeight - 0.3));
         ("valign", Str (lit "top")); ("shrinkText", Bool true);
         ("rtl", Bool true); ("align", Str (lit "right"))] pres
    else pres in
  (* notes *)
  if truthy (speakerNotes s) then addNotes slide (speakerNotes s) pres
  else pres.

(** Step 3 of the flow, up to the content slides. *)
Definition buildDeck (deckTitle : JsString)
    (slidesWithImages : list SlideWithImage) : Pres :=
  let pres := newPres in
  let pres := set_rtlMode true pres in
  let pres := set_layout (lit "LAYOUT_16x9") pres in
  let pres := titleSlide deckTitle pres in
  fold_left (fun pres s => contentSlide s pres) slidesWithImages pres.

(** [data.title.replace(/[^a-z0-9]/gi, '_').toLowerCase()], the base name
    of the exported file, and the file name. *)
Definition baseName (deckTitle : JsString) : JsString :=
  toLowerCase (replace_non_alnum deckTitle).

Definition fileName (deckTitle : JsString) : JsString :=
  baseName deckTitle ++ lit ".pptx".

End Deck.

(* ================================================================== *)
(** ** Runtime: component state, outside world, effects *)
(* ================================================================== *)

Module Runtime.
Import Js Pptx Deck.

(** [types.ts]. *)
Inductive ViewState := TUTOR | VISUALIZER | SOLVER | EXPLORER | PRESENTATION.
Inductive Sender := USER | AI.

Definition ViewState_eqb (a b : ViewState) : bool :=
  match a, b with
  | TUTOR, TUTOR | VISUALIZER, VISUALIZER | SOLVER, SOLVER
  | EXPLORER, EXPLORER | PRESENTATION, PRESENTATION => true
  | _, _ => false
  end.

(** The text of a chat message.  The messages of the presentation flow are
    template literals; a template is kept with the values interpolated in
    it, in the order of the source. *)
Inductive MessageText :=
| Literal (s : JsString)
| AskCount (input : JsString)
| InvalidCount
| Generating (topic : JsString) (count : JsInt)
| Success (deckTitle : JsString) (slideCount : nat)
| FlowError.

(** [Message]; [id] is [Date.now().toString()], kept as the number. *)
Record Message := mkMessage {
  id : Z;
  sender : Sender;
  text : MessageText;
  timestamp : Z
}.

Inductive PresentationStep := TOPIC | COUNT | GENERATING.

(** A request to the generative service: the model, the prompt (a template
    with its interpolated values) and the image size asked for. *)
Inductive Model :=
| gemini_3_pro_image_preview
| gemini_2_5_flash_image
| gemini_2_5_flash.

Inductive Prompt :=
| SlideImagePrompt (prompt : JsString)
| PresentationPrompt (topic : JsString) (slideCount : JsInt).

Record Request := mkRequest {
  model : Model;
  contents : Prompt;
  imageSize : option JsString
}.

(** A part of [response.candidates?.[0]?.content?.parts]: [inlineData] is
    [Some data] when the part has inline data. *)
Record Part := mkPart { inlineData : option JsString }.

(** A response: the parts of its first candidate (none when a link of the
    optional chain is missing) and [response.text]. *)
Record Response := mkResponse {
  parts : list Part;
  response_text : JsString
}.

(** An error object of the service client. *)
Record JsError := mkJsError {
  status : option Z;
  message : option JsString
}.

Inductive Reply := Resolved (r : Response) | Rejected (e : JsError).

(** What can be thrown. *)
Inductive Exn :=
| RemoteError (e : JsError)
| ApiKeyMissing
| SyntaxError
| GenerationFailed.

Inductive ConsoleEntry :=
| warn_fallback
| error_fallback_failed (fallbackError : Exn)
| error_image_generation (error : Exn)
| error_presentation_generation (e : Exn)
| error_flow (error : Exn).

(** The state the flow reads and writes: the React state of the component
    and the outside world (requests sent, console, files written, reads of
    the clock). *)
Record World := mkWorld {
  presentationStep : PresentationStep;
  presentationTopic : JsString;
  messages : ViewState -> list Message;
  isLoading : bool;
  requests : list Request;
  console : list ConsoleEntry;
  files : list (JsString * Pres);
  ticks : nat
}.

(** What the flow does not decide: the API key of the build, the replies of
    the service (they may depend on the requests sent before), the result
    of [JSON.parse] as [PresentationData] ([None]: a syntax error), and
    [Date.now()] at each read. *)
Record Env := mkEnv {
  apiKey : option JsString;
  generateContent : list Request -> Request -> Reply;
  JSON_parse : JsString -> option PresentationData;
  dateNow : nat -> Z
}.

(** Computations: state passing with exceptions. *)
Inductive Outcome (A : Type) := Ok (a : A) | Throw (e : Exn).
Arguments Ok {A} a.
Arguments Throw {A} e.

Definition M (A : Type) : Type := World -> Outcome A * World.

Definition ret {A} (a : A) : M A := fun w => (Ok a, w).
Definition throw {A} (e : Exn) : M A := fun w => (Throw e, w).
Definition bind {A B} (m : M A) (k : A -> M B) : M B :=
  fun w => match m w with
           | (Ok a, w') => k a w'
           | (Throw e, w') => (Throw e, w')
           end.
Definition try_catch {A} (m : M A) (handler : Exn -> M A) : M A :=
  fun w => match m w with
           | (Ok a, w') => (Ok a, w')
           | (Throw e, w') => handler e w'
           end.
(** [try { m } finally { f }], with [f] that does not throw. *)
Definition try_finally {A} (m : M A) (f : World -> World) : M A :=
  fun w => let '(r, w') := m w in (r, f w').
Definition modify (f : World -> World) : M unit := fun w => (Ok tt, f w).

Declare Scope flow_scope.
Delimit Scope flow_scope with flow.
Notation "x <- c1 ;; c2" := (bind c1 (fun x => c2))
  (at level 61, c1 at next level, right associativity) : flow_scope.
Notation "c1 ;; c2" := (bind c1 (fun _ => c2))
  (at level 61, right associativity) : flow_scope.

(** State setters. *)
Definition setPresentationStep (s : PresentationStep) (w : World) : World :=
  mkWorld s (presentationTopic w) (messages w) (isLoading w)
          (requests w) (console w) (files w) (ticks w).
Definition setPresentationTopic (t : JsString) (w : World) : World :=
  mkWorld (presentationStep w) t (messages w) (isLoading w)
          (requests w) (console w) (files w) (ticks w).
Definition setIsLoading (b : bool) (w : World) : World :=
  mkWorld (presentationStep w) (presentationTopic w) (messages w) b
          (requests w) (console w) (files w) (ticks w).
Definition setMessages (f : (ViewState -> list Message) -> ViewState -> list Message)
    (w : World) : World :=
  mkWorld (presentationStep w) (presentationTopic w) (f (messages w))
          (isLoading w) (requests w) (console w) (files w) (ticks w).

Definition log_request (r : Request) (w : World) : World :=
  mkWorld (presentationStep w) (presentationTopic w) (messages w)
          (isLoading w) (requests w ++ [r]) (console w) (files w) (ticks w).
Definition log_console (c : ConsoleEntry) (w : World) : World :=
  mkWorld (presentationStep w) (presentationTopic w) (messages w)
          (isLoading w) (requests w) (console w ++ [c]) (files w) (ticks w).
Definition log_file (name : JsString) (p : Pres) (w : World) : World :=
  mkWorld (presentationStep w) (presentationTopic w) (messages w)
          (isLoading w) (requests w) (console w) (files w ++ [(name, p)])
          (ticks w).
Definition tick (w : World) : World :=
  mkWorld (presentationStep w) (presentationTopic w) (messages w)
          (isLoading w) (requests w) (console w) (files w) (S (ticks w)).

Section Effects.
Variable env : Env.

(** [Date.now()]. *)
Definition Date_now : M Z :=
  fun w => (Ok (dateNow env (ticks w)), tick w).

(** [await ai.models.generateContent(request)]: the request is sent; the
    call resolves with a response or rejects with an error. *)
Definition models_generateContent (r : Request) : M Response :=
  fun w =>
    match generateContent env (requests w) r with
    | Resolved resp => (Ok resp, log_request r w)
    | Rejected e => (Throw (RemoteError e), log_request r w)
    end.

(** [await pres.writeFile({ fileName })]: the file is handed to the
    browser; the download itself is not modelled. *)
Definition writeFile (p : Pres) (name : JsString) : M unit :=
  modify (log_file name p).

End Effects.

End Runtime.

(* ================================================================== *)
(** ** [services/geminiService.ts] *)
(* ================================================================== *)

Module Gemini.
Import Js Pptx Deck Runtime.
Local Open Scope flow_scope.

Section Service.
Variable env : Env.

(** [getAiClient]: throws when the API key is missing. *)
Definition getAiClient : M unit :=
  if negb (truthy_opt (apiKey env)) then throw ApiKeyMissing else ret tt.

(** [`data:image/png;base64,${part.inlineData.data}`]. *)
Definition dataUrl (data : JsString) : JsString :=
  lit "data:image/png;base64," ++ data.

(** [extractImageFromResponse]: the first part with inline data. *)
Fixpoint extractImageFromParts (ps : list Part) : option JsString :=
  match ps with
  | [] => None
  | part :: ps' =>
      match inlineData part with
      | Some data => Some (dataUrl data)
      | None => extractImageFromParts ps'
      end
  end.

Definition extractImageFromResponse (response : Response) : option JsString :=
  extractImageFromParts (parts response).

(** [error.status === n] and [error.message?.includes(s)] on a caught
    value. *)
Definition status_is (error : Exn) (n : Z) : bool :=
  match error with
  | RemoteError e =>
      match status e with Some s => Z.eqb s n | None => false end
  | _ => false
  end.

Definition message_includes (error : Exn) (s : JsString) : bool :=
  match error with
  | RemoteError e =>
      match message e with Some m => includes m s | None => false end
  | _ => false
  end.

(** [generateSlideImage]. *)
Definition generateSlideImage (prompt : JsString) : M (option JsString) :=
  getAiClient ;;
  let imagePrompt := SlideImagePrompt prompt in
  try_catch
    (response <- models_generateContent env
       {| model := gemini_3_pro_image_preview; contents := imagePrompt;
          imageSize := Some (lit "1K") |} ;;
     ret (extractImageFromResponse response))
    (fun error =>
       if status_is error 403
          || message_includes error (lit "PERMISSION_DENIED")
          || status_is error 404
       then
         modify (log_console warn_fallback) ;;
         try_catch
           (response <- models_generateContent env
              {| model := gemini_2_5_flash_image; contents := imagePrompt;
                 imageSize := None |} ;;
            ret (extractImageFromResponse response))
           (fun fallbackError =>
              modify (log_console (error_fallback_failed fallbackError)) ;;
              ret None)
       else
         modify (log_console (error_image_generation error)) ;;
         ret None).

(** [generatePresentationContent]. *)
Definition generatePresentationContent (topic : JsString) (slideCount : JsInt)
  : M PresentationData :=
  getAiClient ;;
  let prompt := PresentationPrompt topic slideCount in
  try_catch
    (response <- models_generateContent env
       {| model := gemini_2_5_flash; contents := prompt;
          imageSize := None |} ;;
     let jsonStr := response_text response in
     match JSON_parse env jsonStr with
     | Some data => ret data
     | None => throw SyntaxError
     end)
    (fun e =>
       modify (log_console (error_presentation_generation e)) ;;
       throw GenerationFailed).

End Service.
End Gemini.

(* ================================================================== *)
(** ** The App component: [handlePresentationFlow] *)
(* ================================================================== *)

Module App.
Import Js Pptx Deck Runtime Gemini.
Local Open Scope flow_scope.

Section Component.
Variable env : Env.

(** [addMessage(viewId, msg)]. *)
Definition addMessage (viewId : ViewState) (msg : Message) : M unit :=
  modify (setMessages (fun prev v =>
    if ViewState_eqb v viewId then prev v ++ [msg] else prev v)).

(** The message literal of the flow:
    [{ id: Date.now().toString(), sender: Sender.AI, text, timestamp: Date.now() }]. *)
Definition aiMessage (t : MessageText) : M Message :=
  i <- Date_now env ;;
  ts <- Date_now env ;;
  ret {| id := i; sender := AI; text := t; timestamp := ts |}.

(** Step 2 of the flow: the images, one slide after the other. *)
Fixpoint fetchImages (slides : list SlideData)
    (slidesWithImages : list SlideWithImage) : M (list SlideWithImage) :=
  match slides with
  | [] => ret slidesWithImages
  | slide :: rest =>
      imageBase64 <-
        (if truthy (sd_imageDescription slide)
         then generateSlideImage env (sd_imageDescription slide)
         else ret None) ;;
      fetchImages rest (slidesWithImages ++ [withImage slide imageBase64])
  end.

(** The count check of the COUNT step. *)
Definition countRejected (count : JsInt) : bool :=
  isNaN count || lt count 1 || gt count 20.

(** The GENERATING part of the COUNT step: what the flow does with an
    accepted [count]. *)
Definition generateDeck (topic : JsString) (count : JsInt) : M unit :=
  modify (setPresentationStep GENERATING) ;;
  msg <- aiMessage (Generating topic count) ;;
  addMessage PRESENTATION msg ;;
  (* 1. text content *)
  data <- generatePresentationContent env topic count ;;
  (* 2. images for each slide *)
  slidesWithImages <- fetchImages (pd_slides data) [] ;;
  (* 3. build PPTX *)
  let pres := buildDeck (pd_title data) slidesWithImages in
  writeFile pres (fileName (pd_title data)) ;;
  msg <- aiMessage (Success (pd_title data) (List.length slidesWithImages)) ;;
  addMessage PRESENTATION msg ;;
  modify (setPresentationStep TOPIC) ;;
  modify (setPresentationTopic []).

(** The [try] block. [topic] and [step] are the state values the handler
    closed over. *)
Definition flowBody (step : PresentationStep) (topic : JsString)
    (input : JsString) : M unit :=
  match step with
  | TOPIC =>
      modify (setPresentationTopic input) ;;
      modify (setPresentationStep COUNT) ;;
      msg <- aiMessage (AskCount input) ;;
      addMessage PRESENTATION msg ;;
      modify (setIsLoading false)
  | COUNT =>
      let count := parseInt input in
      if countRejected count then
        msg <- aiMessage InvalidCount ;;
        addMessage PRESENTATION msg ;;
        modify (setIsLoading false)
      else
        generateDeck topic count
  | GENERATING => ret tt
  end.

(** [handlePresentationFlow]. *)
Definition handlePresentationFlow (input : JsString) : M unit :=
  fun w =>
    (modify (setIsLoading true) ;;
     try_finally
       (try_catch
          (flowBody (presentationStep w) (presentationTopic w) input)
          (fun error =>
             modify (log_console (error_flow error)) ;;
             msg <- aiMessage FlowError ;;
             addMessage PRESENTATION msg ;;
             modify (setPresentationStep TOPIC)))
       (setIsLoading false)) w.

End Component.
End App.

(* ================================================================== *)
(** ** Reading a built deck and a run of the flow *)
(* ================================================================== *)

Module Layout.
Import Js Pptx Deck Runtime Gemini App.
Local Open Scope string_scope.
Local Open Scope list_scope.

(** The slide that [contentSlide s] appends, and the one [titleSlide]
    appends, read back from a presentation that had none. *)
Definition slideFor (s : SlideWithImage) : Slide :=
  hd (mkSlide None [] []) (slides (contentSlide s newPres)).

Definition coverFor (deckTitle : JsString) : Slide :=
  hd (mkSlide None [] []) (slides (titleSlide deckTitle newPres)).

Definition num (v : option Value) : option float :=
  match v with Some (Num f) => Some f | _ => None end.

Definition xOf (o : SlideObject) : option float := num (get "x" (options o)).
Definition yOf (o : SlideObject) : option float := num (get "y" (options o)).
Definition wOf (o : SlideObject) : option float := num (get "w" (options o)).

(** The regions of a content slide, by the position of an object's top
    left corner: the examples band starts at [examplesY]; the content
    region lies between [contentY] and [examplesY], with the image column
    left of [textX] and the text column from [textX] on. *)
Definition inExamplesBand (o : SlideObject) : bool :=
  match yOf o with
  | Some y => PrimFloat.leb examplesY y
  | None => false
  end.

Definition inContentRegion (o : SlideObject) : bool :=
  match yOf o with
  | Some y => PrimFloat.leb contentY y && PrimFloat.ltb y examplesY
  | None => false
  end.

Definition inImageColumn (o : SlideObject) : bool :=
  inContentRegion o &&
  match xOf o with Some x => PrimFloat.ltb x textX | None => false end.

Definition inTextColumn (o : SlideObject) : bool :=
  inContentRegion o &&
  match xOf o with Some x => PrimFloat.leb textX x | None => false end.

(** The strings of an object built from an array of runs, in order. *)
Definition runTexts (o : SlideObject) : list JsString :=
  match o with
  | Pptx.text (Runs rs) _ => map fst rs
  | _ => []
  end.

Definition isRuns (o : SlideObject) : bool :=
  match o with Pptx.text (Runs _) _ => true | _ => false end.

(** The box of the image column and the full content width. *)
Definition imageColumnBox :
  option Value * option Value * option Value * option Value :=
  (Some (Num MARGIN), Some (Num contentY),
   Some (Num imageWidth), Some (Num contentHeight)).

Definition fullContentWidth : float := (SLIDE_WIDTH - MARGIN * 2)%float.

(** [{ ...slide }] without the image: the record the slide came from. *)
Definition slideData (s : SlideWithImage) : SlideData :=
  {| sd_title := title s; sd_bullets := bullets s;
     sd_examples := examples s;
     sd_imageDescription := imageDescription s;
     sd_speakerNotes := speakerNotes s |}.

(** The value of a string of decimal digits. *)
Definition decimal (ds : JsString) : Z :=
  fold_left (fun acc c => (acc * 10 + (Z.of_N c - 48))%Z) ds 0%Z.

(** A deck title in Arabic script (five letters). *)
Definition arabicTitle : JsString := [1605; 1585; 1581; 1576; 1575]%N.

(** [rest] does not go on with a decimal digit. *)
Definition noDigitAhead (rest : JsString) : bool :=
  match rest with
  | [] => true
  | c :: _ => negb (is_digit c)
  end.

(** Two slide records: one with an example and an illustration, one with
    neither. *)
Definition exampleSlide : SlideWithImage :=
  {| title := lit "Intro"; bullets := [lit "a"; lit "b"];
     examples := [lit "2+2=4"]; imageDescription := lit "a number line";
     speakerNotes := []; imageBase64 := Some (lit "data:image/png;base64,AAAA") |}.

Definition exampleSlideNoImage : SlideWithImage :=
  {| title := lit "Intro"; bullets := [lit "a"; lit "b"];
     examples := []; imageDescription := [];
     speakerNotes := []; imageBase64 := None |}.

(** The requests of the service functions. *)
Definition imageRequest (prompt : JsString) : Request :=
  {| model := gemini_3_pro_image_preview;
     contents := SlideImagePrompt prompt;
     imageSize := Some (lit "1K") |}.

Definition fallbackRequest (prompt : JsString) : Request :=
  {| model := gemini_2_5_flash_image;
     contents := SlideImagePrompt prompt;
     imageSize := None |}.

Definition contentRequest (topic : JsString) (count : JsInt) : Request :=
  {| model := gemini_2_5_flash;
     contents := PresentationPrompt topic count;
     imageSize := None |}.

(** A first-attempt image request (not the fallback). *)
Definition isImageRequest (r : Request) : bool :=
  match model r with gemini_3_pro_image_preview => true | _ => false end.

(** [w] after more requests and console lines, the rest untouched. *)
Definition withLogs (w : World) (rs : list Request) (cs : list ConsoleEntry)
  : World :=
  mkWorld (presentationStep w) (presentationTopic w) (messages w)
          (isLoading w) (requests w ++ rs) (console w ++ cs) (files w)
          (ticks w).

(** The records of [slidesWithImages] for the slides and their images. *)
Definition withImages (slides : list SlideData)
    (imgs : list (option JsString)) : list SlideWithImage :=
  map (fun p => withImage (fst p) (snd p)) (combine slides imgs).

(** Where the image of a slide can come from: a reply of the service to a
    request for the description of that slide.  No such reply, no image. *)
Definition imageFrom (env : Env) (slide : SlideData)
    (img : option JsString) : Prop :=
  match img with
  | None => True
  | Some _ =>
      truthy (sd_imageDescription slide) = true /\
      exists h req r,
        contents req = SlideImagePrompt (sd_imageDescription slide) /\
        generateContent env h req = Resolved r /\
        extractImageFromResponse r = img
  end.

(** A console line of the [catch] of the flow. *)
Definition isFlowError (c : ConsoleEntry) : bool :=
  match c with error_flow _ => true | _ => false end.

(** A service for the examples: the content request is answered with four
    slides; the image request for "bad" is rejected with status 500, the
    one for "perm" is rejected with status 403 and its fallback answered,
    every other image request is answered. *)
Definition sampleData : PresentationData :=
  mkPresentationData (lit "Vectors")
    [mkSlideData (lit "s1") [lit "a"] [] (lit "good") [];
     mkSlideData (lit "s2") [] [lit "e"] (lit "bad") [];
     mkSlideData (lit "s3") [] [] (lit "perm") [];
     mkSlideData (lit "s4") [] [] [] []].

Definition sampleEnv : Env :=
  mkEnv (Some (lit "key"))
    (fun _ r =>
       match contents r with
       | PresentationPrompt _ _ => Resolved (mkResponse [] (lit "{}"))
       | SlideImagePrompt p =>
           if str_eqb p (lit "bad")
           then Rejected (mkJsError (Some 500%Z) None)
           else if str_eqb p (lit "perm") then
             match model r with
             | gemini_2_5_flash_image =>
                 Resolved (mkResponse [mkPart None; mkPart (Some (lit "QUJD"))] [])
             | _ => Rejected (mkJsError (Some 403%Z) None)
             end
           else Resolved (mkResponse [mkPart (Some (lit "AAAA"))] [])
       end)
    (fun _ => Some sampleData)
    (fun n => Z.of_nat n).

(** The component waiting for the slide count. *)
Definition sampleWorld : World :=
  mkWorld COUNT (lit "Vectors") (fun _ => []) false [] [] [] 0.

End Layout.

(* ================================================================== *)
(** ** Reading a slide: edges, safe file names, retried requests *)
(* ================================================================== *)

Module Geometry.
Import Js Pptx Deck Runtime Gemini App Layout.
Local Open Scope string_scope.
Local Open Scope list_scope.

Definition hOf (o : SlideObject) : option float := num (get "h" (options o)).

(** The edges (left, top, right, bottom) of an object with a numeric box. *)
Definition edges (o : SlideObject) : option (float * float * float * float) :=
  match xOf o, yOf o, wOf o, hOf o with
  | Some x, Some y, Some w, Some h => Some (x, y, (x + w)%float, (y + h)%float)
  | _, _, _, _ => None
  end.

(** The object lies between the left and the right margin and above the
    bottom margin, with its top edge on the slide (the title band starts
    above the top margin, so no top margin is asked for). *)
Definition betweenMargins (o : SlideObject) : bool :=
  match edges o with
  | Some (l, t, r, b) =>
      PrimFloat.leb MARGIN l &&
      PrimFloat.leb r (SLIDE_WIDTH - MARGIN)%float &&
      PrimFloat.leb 0 t &&
      PrimFloat.leb b (SLIDE_HEIGHT - MARGIN)%float
  | None => false
  end.

Definition rightEdge (o : SlideObject) : option float :=
  match edges o with Some (_, _, r, _) => Some r | None => None end.

Definition bottomEdge (o : SlideObject) : option float :=
  match edges o with Some (_, _, _, b) => Some b | None => None end.

(** The boxes share an area (touching edges do not count). *)
Definition overlaps (o1 o2 : SlideObject) : bool :=
  match edges o1, edges o2 with
  | Some (l1, t1, r1, b1), Some (l2, t2, r2, b2) =>
      PrimFloat.ltb l1 r2 && PrimFloat.ltb l2 r1 &&
      PrimFloat.ltb t1 b2 && PrimFloat.ltb t2 b1
  | _, _ => false
  end.

Definition sameEdges (o1 o2 : SlideObject) : bool :=
  match edges o1, edges o2 with
  | Some (l1, t1, r1, b1), Some (l2, t2, r2, b2) =>
      PrimFloat.eqb l1 l2 && PrimFloat.eqb t1 t2 &&
      PrimFloat.eqb r1 r2 && PrimFloat.eqb b1 b2
  | _, _ => false
  end.

(** The fallback rectangle followed by its caption, on the same box. *)
Definition isFallbackPair (o1 o2 : SlideObject) : bool :=
  match o1, o2 with
  | Pptx.shape rect _, Pptx.text (Plain c) _ =>
      str_eqb c noImageCaption && sameEdges o1 o2
  | _, _ => false
  end.

(** [ok] holds between every element of the list and every later one. *)
Fixpoint pairwise {A} (ok : A -> A -> bool) (l : list A) : bool :=
  match l with
  | [] => true
  | a :: l' => forallb (ok a) l' && pairwise ok l'
  end.

(** No two objects of the list share an area, except the fallback
    rectangle and its caption. *)
Definition disjointExceptFallback (os : list SlideObject) : bool :=
  pairwise (fun o1 o2 => negb (overlaps o1 o2) || isFallbackPair o1 o2) os.

(** The requests the image loop sends for one slide: for a slide with a
    description the first request for it, alone or followed by the
    fallback request for it; for a slide without description none. *)
Definition requestsOfSlide (slide : SlideData) (block : list Request) : Prop :=
  if truthy (sd_imageDescription slide)
  then block = [imageRequest (sd_imageDescription slide)] \/
       block = [imageRequest (sd_imageDescription slide);
                fallbackRequest (sd_imageDescription slide)]
  else block = [].

(** The record with other speaker notes. *)
Definition withNotes (s : SlideWithImage) (n : JsString) : SlideWithImage :=
  {| title := title s; bullets := bullets s; examples := examples s;
     imageDescription := imageDescription s; speakerNotes := n;
     imageBase64 := imageBase64 s |}.

(** A code unit of a lower-case ASCII letter, a digit or an underscore. *)
Definition is_safe (c : code_unit) : bool :=
  is_lower c || is_digit c || cu_eqb c underscore.

(** The errors after which [generateSlideImage] tries the other model:
    status 403 or 404, or a message with PERMISSION_DENIED. *)
Definition retried (e : JsError) : bool :=
  status_is (RemoteError e) 403
  || message_includes (RemoteError e) (lit "PERMISSION_DENIED")
  || status_is (RemoteError e) 404.

(** No API key in the build. *)
Definition noKeyEnv (env : Env) : Env :=
  mkEnv None (generateContent env) (JSON_parse env) (dateNow env).

(** The requests of a flow that are not in [before]. *)
Definition newRequests (before after : World) : list Request :=
  skipn (List.length (requests before)) (requests after).

(** A service that rejects every request with status 500. *)
Definition rejectingEnv : Env :=
  mkEnv (Some (lit "key"))
    (fun _ _ => Rejected (mkJsError (Some 500%Z) None))
    (fun _ => None)
    (fun n => Z.of_nat n).

(** The component waiting for the topic. *)
Definition freshWorld : World :=
  mkWorld TOPIC [] (fun _ => []) false [] [] [] 0.

End Geometry.

(* ================================================================== *)
(** ** The other services of [services/geminiService.ts] *)
(* ================================================================== *)

Module Services.
Import Js Pptx Deck Runtime Gemini App Layout.
Local Open Scope list_scope.

(** [String.prototype.trim]: white space off both ends. *)
Definition trim (s : JsString) : JsString :=
  rev (trimStart (rev (trimStart s))).

(** [s.split(sep)] for a separator of one code unit. *)
Fixpoint split (sep : code_unit) (s : JsString) : list JsString :=
  match s with
  | [] => [[]]
  | c :: s' =>
      if cu_eqb c sep then [] :: split sep s'
      else match split sep s' with
           | seg :: segs => (c :: seg) :: segs
           | [] => [[c]]
           end
  end.

(** The text of a chat message: a string, [undefined] (a response without
    text), one of the fixed Arabic sentences of the source, the caption of
    a generated image (a template with the size and the prompt), or a
    message of the presentation flow. *)
Inductive FixedText :=
| NoImageCreated      (* could not create the image, try another description *)
| NoResponse          (* no response was generated *)
| SomethingWrong      (* something went wrong *)
| AnalyzeThisImage    (* analyse this image: *)
| ImageFailed.        (* failed to process the image *)

Inductive ChatText :=
| Str (s : JsString)
| Undefined
| Fixed (f : FixedText)
| Caption (visualSize : JsString) (prompt : JsString)
| OfFlow (t : MessageText).

(** A grounding source, a grounding chunk of a response. *)
Record Source := mkSource { uri : JsString; source_title : JsString }.
Record Chunk := mkChunk { web : option Source }.

(** [Message] of [types.ts] ([isThinking] is never set). *)
Record ChatMessage := mkChatMessage {
  cm_id : Z;
  cm_sender : Sender;
  cm_text : ChatText;
  cm_image : option JsString;
  cm_timestamp : Z;
  cm_sources : option (list Source)
}.

(** An entry of a chat history: [{ role, parts: [{ text }] }]. *)
Record HistoryEntry := mkHistoryEntry { role : JsString; entry_text : ChatText }.

(** The prompt of [solveMathProblem]: typed text, the fixed sentence of
    the upload handler, or the built-in instructions. *)
Inductive SolvePrompt :=
| TypedPrompt (s : JsString)
| SolveTheImage
| DefaultInstructions.

(** What is sent to the service: the model and the contents. *)
Inductive CallBody :=
| TutorChat (history : list HistoryEntry) (message : JsString)
| Visual (prompt : JsString) (imageSize : option JsString)
| Solve (imageData : option JsString) (prompt : SolvePrompt)
| Explain (prompt : JsString) (googleSearch : bool)
| Speech (text : JsString).

Record Call := mkCall { call_model : JsString; call_body : CallBody }.

(** A response: [text], the parts of the first candidate and its grounding
    chunks (none when a link of the optional chain is missing). *)
Record Answer := mkAnswer {
  a_text : option JsString;
  a_parts : list Part;
  a_chunks : list Chunk
}.

Inductive CallReply := Answered (a : Answer) | Refused (e : JsError).

(** What can be thrown in the handlers of the chat. *)
Inductive Err :=
| Thrown (e : Exn)
| TextIsEmpty
| NoAudioGenerated
| InvalidCharacter
| ReaderError
| DecodeFailed.

Inductive Logged :=
| warn_visual_fallback
| error_standard (e : Err)
| error_upload (e : Err)
| error_tts (e : Err).

(** The network and the console. *)
Record Net := mkNet { sent : list Call; logged : list Logged }.

(** What the handlers do not decide: the environment of the presentation
    flow (API key, clock), the replies to the calls, [window.atob] ([None]:
    it throws) and whether [decodeAudioData] accepts a buffer. *)
Record ChatEnv := mkChatEnv {
  flowEnv : Env;
  respond : list Call -> Call -> CallReply;
  atob : JsString -> option JsString;
  decodeAudioData : list N -> bool
}.

(** State passing with exceptions, over any state. *)
Inductive Result (A : Type) := Done (a : A) | Raised (e : Err).
Arguments Done {A} a.
Arguments Raised {A} e.

Definition ST (S A : Type) : Type := S -> Result A * S.

Definition unit_ {S A} (a : A) : ST S A := fun s => (Done a, s).
Definition raise {S A} (e : Err) : ST S A := fun s => (Raised e, s).
Definition and_then {S A B} (m : ST S A) (k : A -> ST S B) : ST S B :=
  fun s => match m s with
           | (Done a, s') => k a s'
           | (Raised e, s') => (Raised e, s')
           end.
Definition catch {S A} (m : ST S A) (handler : Err -> ST S A) : ST S A :=
  fun s => match m s with
           | (Done a, s') => (Done a, s')
           | (Raised e, s') => handler e s'
           end.
Definition finally {S A} (m : ST S A) (f : S -> S) : ST S A :=
  fun s => let '(r, s') := m s in (r, f s').
Definition update {S} (f : S -> S) : ST S unit := fun s => (Done tt, f s).

(** A computation on a part of the state. *)
Definition zoom {S T A} (get : S -> T) (set : T -> S -> S) (m : ST T A)
  : ST S A :=
  fun s => let '(r, t') := m (get s) in (r, set t' s).

Declare Scope chat_scope.
Delimit Scope chat_scope with chat.
Notation "x <-- c1 ;; c2" := (and_then c1 (fun x => c2))
  (at level 61, c1 at next level, right associativity) : chat_scope.
Notation "c1 ;;; c2" := (and_then c1 (fun _ => c2))
  (at level 61, right associativity) : chat_scope.
Local Open Scope chat_scope.

Definition log_sent (c : Call) (n : Net) : Net :=
  mkNet (sent n ++ [c]) (logged n).
Definition log_line (l : Logged) (n : Net) : Net :=
  mkNet (sent n) (logged n ++ [l]).

Section Service.
Variable env : ChatEnv.

(** [getAiClient]. *)
Definition client {S} : ST S unit :=
  if negb (truthy_opt (apiKey (flowEnv env))) then raise (Thrown ApiKeyMissing)
  else unit_ tt.

(** A call of the client ([generateContent], [sendMessage]): it is sent,
    and answered or refused. *)
Definition call (c : Call) : ST Net Answer :=
  fun n =>
    match respond env (sent n) c with
    | Answered a => (Done a, log_sent c n)
    | Refused e => (Raised (Thrown (RemoteError e)), log_sent c n)
    end.

(** The test of the [catch] of [generateMathVisual]. *)
Definition permissionDenied (error : Err) : bool :=
  match error with
  | Thrown e =>
      status_is e 403 || message_includes e (lit "PERMISSION_DENIED")
      || status_is e 404
  | _ => false
  end.

(** [generateDeepTutorResponse]: a chat created with the history, then
    the prompt sent as its next message. *)
Definition generateDeepTutorResponse (prompt : JsString)
    (history : list HistoryEntry) : ST Net (option JsString) :=
  client ;;;
  response <-- call (mkCall (lit "gemini-3-pro-preview")
                        (TutorChat history prompt)) ;;
  unit_ (a_text response).

(** [generateMathVisual]. *)
Definition generateMathVisual (prompt : JsString) (size : JsString)
  : ST Net (option JsString) :=
  client ;;;
  catch
    (response <-- call (mkCall (lit "gemini-3-pro-image-preview")
                          (Visual prompt (Some size))) ;;
     unit_ (extractImageFromParts (a_parts response)))
    (fun error =>
       if permissionDenied error then
         update (log_line warn_visual_fallback) ;;;
         response <-- call (mkCall (lit "gemini-2.5-flash-image")
                               (Visual prompt None)) ;;
         unit_ (extractImageFromParts (a_parts response))
       else raise error).

(** [solveMathProblem]: [prompt || instructions]. *)
Definition promptOrDefault (prompt : SolvePrompt) : SolvePrompt :=
  match prompt with
  | TypedPrompt s => if truthy s then prompt else DefaultInstructions
  | _ => prompt
  end.

Definition solveMathProblem (imageBase64 : option JsString)
    (prompt : SolvePrompt) : ST Net (option JsString) :=
  client ;;;
  response <-- call (mkCall (lit "gemini-3-pro-preview")
                        (Solve imageBase64 (promptOrDefault prompt))) ;;
  unit_ (a_text response).

(** [groundingChunks.map(c => c.web ? {...} : null).filter(s => s !== null)]. *)
Fixpoint webSources (chunks : list Chunk) : list Source :=
  match chunks with
  | [] => []
  | c :: cs =>
      match web c with
      | Some s => mkSource (uri s) (source_title s) :: webSources cs
      | None => webSources cs
      end
  end.

(** [quickExplain]: the text and the sources. *)
Definition quickExplain (prompt : JsString) (useSearch : bool)
  : ST Net (option JsString * list Source) :=
  client ;;;
  if useSearch then
    response <-- call (mkCall (lit "gemini-2.5-flash") (Explain prompt true)) ;;
    unit_ (a_text response, webSources (a_chunks response))
  else
    response <-- call (mkCall (lit "gemini-flash-lite-latest")
                          (Explain prompt false)) ;;
    unit_ (a_text response, []).

(** [bytes[i] = binaryString.charCodeAt(i)] into a [Uint8Array]. *)
Definition toBytes (binaryString : JsString) : list N :=
  map (fun c => N.modulo c 256) binaryString.

(** [generateSpeech]. *)
Definition generateSpeech (text : JsString) : ST Net (list N) :=
  client ;;;
  if negb (truthy text) || Nat.eqb (List.length (trim text)) 0
  then raise TextIsEmpty
  else
    response <-- call (mkCall (lit "gemini-2.5-flash-preview-tts")
                          (Speech (firstn 500 text))) ;;
    let base64Audio :=
      match a_parts response with
      | p :: _ => inlineData p
      | [] => None
      end in
    if negb (truthy_opt base64Audio) then raise NoAudioGenerated
    else
      match atob env (match base64Audio with Some d => d | None => [] end) with
      | None => raise InvalidCharacter
      | Some binaryString => unit_ (toBytes binaryString)
      end.

(** [fileToBase64] on what the reader delivers: [None] when it fails,
    otherwise the data URL; the result is [result.split(',')[1]], which is
    [undefined] ([None]) when there is no comma. *)
Definition fileToBase64 {S} (readerResult : option JsString)
  : ST S (option JsString) :=
  match readerResult with
  | None => raise ReaderError
  | Some result => unit_ (nth_error (split 44%N result) 1)
  end.

End Service.
End Services.

(* ================================================================== *)
(** ** The App component: sending a message, uploading a file *)
(* ================================================================== *)

Module Chat.
Import Js Pptx Deck Runtime Gemini App Layout Services.
Local Open Scope list_scope.
Local Open Scope chat_scope.

Inductive ExplorerMode := search | fast.

(** The state of the component: the React state, with what it shares with
    the presentation flow ([isLoading], the step, the topic, the clock) in
    [world], and the network of the other services. *)
Record Session := mkSession {
  view : ViewState;
  inputText : JsString;
  chat : ViewState -> list ChatMessage;
  visualSize : JsString;
  explorerMode : ExplorerMode;
  fileInputValue : JsString;
  net : Net;
  world : World
}.

Definition set_inputText (t : JsString) (s : Session) : Session :=
  mkSession (view s) t (chat s) (visualSize s) (explorerMode s)
            (fileInputValue s) (net s) (world s).
Definition set_chat (c : ViewState -> list ChatMessage) (s : Session) : Session :=
  mkSession (view s) (inputText s) c (visualSize s) (explorerMode s)
            (fileInputValue s) (net s) (world s).
Definition set_fileInputValue (v : JsString) (s : Session) : Session :=
  mkSession (view s) (inputText s) (chat s) (visualSize s) (explorerMode s)
            v (net s) (world s).
Definition set_net (n : Net) (s : Session) : Session :=
  mkSession (view s) (inputText s) (chat s) (visualSize s) (explorerMode s)
            (fileInputValue s) n (world s).
Definition set_world (w : World) (s : Session) : Session :=
  mkSession (view s) (inputText s) (chat s) (visualSize s) (explorerMode s)
            (fileInputValue s) (net s) w.

(** A message of the presentation flow as a message of the chat. *)
Definition ofFlow (m : Message) : ChatMessage :=
  mkChatMessage (id m) (sender m) (OfFlow (Runtime.text m)) None
                (timestamp m) None.

(** A computation of the presentation flow inside the component: its
    world is the shared part, and the messages it adds to a view are added
    to the chat of that view. *)
Definition liftFlow {A} (m : M A) : ST Session A :=
  fun s =>
    let '(r, w') := m (world s) in
    let s' :=
      set_chat (fun v =>
                  chat s v ++
                  map ofFlow (skipn (List.length (messages (world s) v))
                                    (messages w' v)))
               (set_world w' s) in
    match r with
    | Ok a => (Done a, s')
    | Throw e => (Raised (Thrown e), s')
    end.

Definition onWorld (f : World -> World) : ST Session unit :=
  update (fun s => set_world (f (world s)) s).

Definition onNet {A} (m : ST Net A) : ST Session A := zoom net set_net m.

Section Component.
Variable env : ChatEnv.

(** [Date.now()], on the clock of the flow. *)
Definition now : ST Session Z :=
  fun s => (Done (dateNow (flowEnv env) (ticks (world s))),
            set_world (tick (world s)) s).

(** [addMessage(viewId, msg)]. *)
Definition addMessage (viewId : ViewState) (msg : ChatMessage)
  : ST Session unit :=
  update (fun s =>
    set_chat (fun v => if ViewState_eqb v viewId then chat s v ++ [msg]
                       else chat s v) s).

(** The message literal of the replies:
    [{ id: (Date.now() + 1).toString(), sender: Sender.AI, text, ... }]. *)
Definition aiMessage (t : ChatText) (img : option JsString)
    (srcs : option (list Source)) : ST Session ChatMessage :=
  i <-- now ;;
  ts <-- now ;;
  unit_ (mkChatMessage (i + 1) AI t img ts srcs).

Definition textOrUndefined (t : option JsString) : ChatText :=
  match t with Some s => Str s | None => Undefined end.

(** [m => ({ role: m.sender === Sender.USER ? 'user' : 'model',
             parts: [{ text: m.text }] })]. *)
Definition historyEntry (m : ChatMessage) : HistoryEntry :=
  mkHistoryEntry
    (match cm_sender m with USER => lit "user" | AI => lit "model" end)
    (cm_text m).

(** The [try] block of [handleStandardFlow]; [snap] is the render the
    handler closed over ([view], [messages], [visualSize], [explorerMode]),
    [userText] is [userMsg.text]. *)
Definition standardBody (snap : Session) (userText : JsString)
  : ST Session unit :=
  let reply (aiText : ChatText) (sources : option (list Source)) :=
    msg <-- aiMessage aiText None sources ;;
    addMessage (view snap) msg in
  match view snap with
  | TUTOR =>
      let history := map historyEntry (chat snap TUTOR) in
      let history := history ++ [mkHistoryEntry (lit "user") (Str userText)] in
      aiText <-- onNet (generateDeepTutorResponse env userText history) ;;
      reply (textOrUndefined aiText) None
  | VISUALIZER =>
      imageUrl <-- onNet (generateMathVisual env userText (visualSize snap)) ;;
      if truthy_opt imageUrl then
        msg <-- aiMessage (Caption (visualSize snap) userText) imageUrl None ;;
        addMessage (view snap) msg ;;;
        onWorld (setIsLoading false)
      else reply (Fixed NoImageCreated) None
  | EXPLORER =>
      result <-- onNet (quickExplain env userText
                          (match explorerMode snap with
                           | search => true | fast => false end)) ;;
      reply (if truthy_opt (fst result) then textOrUndefined (fst result)
             else Fixed NoResponse)
            (Some (snd result))
  | SOLVER =>
      aiText <-- onNet (solveMathProblem env (Some []) (TypedPrompt userText)) ;;
      reply (textOrUndefined aiText) None
  | PRESENTATION => reply (Str []) None
  end.

(** [handleStandardFlow]. *)
Definition handleStandardFlow (snap : Session) (userText : JsString)
  : ST Session unit :=
  onWorld (setIsLoading true) ;;;
  finally
    (catch (standardBody snap userText)
       (fun error =>
          onNet (update (log_line (error_standard error))) ;;;
          msg <-- aiMessage (Fixed SomethingWrong) None None ;;
          addMessage (view snap) msg))
    (fun s => set_world (setIsLoading false (world s)) s).

(** [handleSendMessage]. *)
Definition handleSendMessage : ST Session unit :=
  fun snap =>
    (if negb (truthy (trim (inputText snap))) then unit_ tt
     else
       i <-- now ;;
       ts <-- now ;;
       let userMsg :=
         mkChatMessage i USER (Str (inputText snap)) None ts None in
       addMessage (view snap) userMsg ;;;
       update (set_inputText []) ;;;
       if ViewState_eqb (view snap) PRESENTATION
       then liftFlow (handlePresentationFlow (flowEnv env) (inputText snap))
       else handleStandardFlow snap (inputText snap)) snap.

(** [handleKeyDown]: Enter without Shift sends. *)
Definition handleKeyDown (key : JsString) (shiftKey : bool)
  : ST Session unit :=
  if str_eqb key (lit "Enter") && negb shiftKey then handleSendMessage
  else unit_ tt.

(** A chosen file: its type and what the reader makes of it. *)
Record File := mkFile {
  file_type : JsString;
  readAsDataURL : option JsString
}.

(** [`data:${file.type};base64,${base64}`]. *)
Definition uploadedImage (file : File) (base64 : option JsString) : JsString :=
  lit "data:" ++ file_type file ++ lit ";base64," ++
  match base64 with Some b => b | None => lit "undefined" end.

(** [handleFileUpload]; [file] is [e.target.files?.[0]]. *)
Definition handleFileUpload (file : option File) : ST Session unit :=
  fun snap =>
    match file with
    | None => unit_ tt snap
    | Some file =>
        (onWorld (setIsLoading true) ;;;
         finally
           (catch
              (base64 <-- fileToBase64 (readAsDataURL file) ;;
               i <-- now ;;
               ts <-- now ;;
               addMessage (view snap)
                 (mkChatMessage i USER (Fixed AnalyzeThisImage)
                    (Some (uploadedImage file base64)) ts None) ;;;
               result <-- onNet (solveMathProblem env base64 SolveTheImage) ;;
               msg <-- aiMessage (textOrUndefined result) None None ;;
               addMessage (view snap) msg)
              (fun error =>
                 onNet (update (log_line (error_upload error))) ;;;
                 msg <-- aiMessage (Fixed ImageFailed) None None ;;
                 addMessage (view snap) msg))
           (fun s =>
              set_fileInputValue []
                (set_world (setIsLoading false (world s)) s))) snap
    end.

End Component.
End Chat.

(* ================================================================== *)
(** ** The chat bubble: reading a message aloud *)
(* ================================================================== *)

Module Bubble.
Import Js Runtime Services.
Local Open Scope list_scope.
Local Open Scope chat_scope.

(** [s.replace(/\$\$/g, '')]: the pairs of dollar signs, left to right. *)
Fixpoint removePairs (c : code_unit) (s : JsString) : JsString :=
  match s with
  | a :: s1 =>
      match s1 with
      | b :: s2 =>
          if cu_eqb a c && cu_eqb b c then removePairs c s2
          else a :: removePairs c s1
      | [] => s
      end
  | [] => []
  end.

(** [s.replace(/[...]/g, '')] for a class of code units. *)
Definition removeAll (p : code_unit -> bool) (s : JsString) : JsString :=
  filter (fun c => negb (p c)) s.

Definition is_dollar (c : code_unit) : bool := cu_eqb c 36%N.

(** The class [[*#_`]]. *)
Definition is_markdown (c : code_unit) : bool :=
  cu_eqb c 42%N || cu_eqb c 35%N || cu_eqb c 95%N || cu_eqb c 96%N.

(** [cleanText] of [handleSpeak]. *)
Definition cleanText (text : JsString) : JsString :=
  removeAll is_markdown (removeAll is_dollar (removePairs 36%N text)).

(** The state of a bubble, the buffers it started to play, its network. *)
Record State := mkState {
  isPlaying : bool;
  loadingAudio : bool;
  started : list (list N);
  bubbleNet : Net
}.

Definition setIsPlaying (b : bool) (s : State) : State :=
  mkState b (loadingAudio s) (started s) (bubbleNet s).
Definition setLoadingAudio (b : bool) (s : State) : State :=
  mkState (isPlaying s) b (started s) (bubbleNet s).
Definition start (buffer : list N) (s : State) : State :=
  mkState (isPlaying s) (loadingAudio s) (started s ++ [buffer]) (bubbleNet s).
Definition set_bubbleNet (n : Net) (s : State) : State :=
  mkState (isPlaying s) (loadingAudio s) (started s) n.

Section Component.
Variable env : ChatEnv.

(** [handleSpeak] for a message with the text [text], up to the start of
    the playback (the end of the playback, which resets [isPlaying], is a
    later event). *)
Definition handleSpeak (text : JsString) : ST State unit :=
  fun s =>
    if isPlaying s then unit_ tt s
    else
      finally
        (catch
           (update (setLoadingAudio true) ;;;
            audioBuffer <-- zoom bubbleNet set_bubbleNet
                              (generateSpeech env (cleanText text)) ;;
            (if decodeAudioData env audioBuffer then unit_ tt
             else raise DecodeFailed) ;;;
            update (start audioBuffer) ;;;
            update (setIsPlaying true))
           (fun e =>
              zoom bubbleNet set_bubbleNet (update (log_line (error_tts e)))))
        (setLoadingAudio false) s.

End Component.
End Bubble.

(* ================================================================== *)
(** ** Sample inputs for the chat *)
(* ================================================================== *)

Module Samples.
Import Js Pptx Deck Runtime Gemini App Layout Geometry Services Chat Bubble.
Local Open Scope list_scope.

(** A code unit that is a dollar sign or of the class [[*#_`]]. *)
Definition is_markup (c : code_unit) : bool := is_dollar c || is_markdown c.

Definition has_comma (s : JsString) : bool := existsb (fun c => cu_eqb c 44%N) s.

(** A service for the chat: the first image model refuses with status
    403 and the other answers with an image; the speech model answers with
    audio; every other call is answered with the text "ok" and two
    grounding chunks, one of them of the web. *)
Definition sampleChatEnv : ChatEnv :=
  mkChatEnv sampleEnv
    (fun _ c =>
       match call_body c with
       | Visual _ (Some _) => Refused (mkJsError (Some 403%Z) None)
       | Visual _ None =>
           Answered (mkAnswer None [mkPart (Some (lit "AAAA"))] [])
       | Speech _ =>
           Answered (mkAnswer None [mkPart (Some (lit "UklGRg=="))] [])
       | _ =>
           Answered (mkAnswer (Some (lit "ok")) []
                       [mkChunk (Some (mkSource (lit "https://a.example")
                                                (lit "A")));
                        mkChunk None])
       end)
    (fun s => Some s)
    (fun _ => true).

(** The same without API key. *)
Definition noKeyChatEnv : ChatEnv :=
  mkChatEnv (noKeyEnv sampleEnv) (respond sampleChatEnv)
            (atob sampleChatEnv) (decodeAudioData sampleChatEnv).

(** The component in a view, with one earlier message in each chat and a
    text in the input box. *)
Definition sampleSession (v : ViewState) (input : JsString) : Session :=
  mkSession v input
    (fun _ => [mkChatMessage 1 AI (Str (lit "hello")) None 0 None])
    (lit "1K") search [] (mkNet [] []) freshWorld.

(** A picked PNG file and a file the reader cannot read. *)
Definition samplePng : File :=
  mkFile (lit "image/png") (Some (lit "data:image/png;base64,iVBORw0KGgo=")).
Definition unreadableFile : File := mkFile (lit "image/png") None.

Definition idleBubble : Bubble.State := mkState false false [] (mkNet [] []).

End Samples.

(* ================================================================== *)
(** * Properties *)
(* ================================================================== *)

(** ** Strings: the file name and [parseInt] *)

Module JsFacts.
Import Js Pptx Deck Layout.
Local Open Scope string_scope.
Local Open Scope list_scope.
Local Open Scope N_scope.

Lemma between_spec lo hi c :
  between lo hi c = true <-> (lo <= c <= hi)%N.
Proof.
  unfold between. rewrite andb_true_iff, !N.leb_le. tauto.
Qed.

Lemma is_digit_spec c : is_digit c = true <-> (48 <= c <= 57)%N.
Proof. apply between_spec. Qed.

(** After the replacement only ASCII letters, digits and underscores are
    left, which is where [toLowerCase] is modelled. *)
Lemma replace_non_alnum_ascii (s : JsString) :
  Forall (fun c => is_alnum c = true \/ c = underscore) (replace_non_alnum s).
Proof.
  unfold replace_non_alnum. induction s as [|c s IH]; simpl; constructor; auto.
  destruct (is_alnum c) eqn:E; auto.
Qed.

Lemma baseName_length (t : JsString) :
  List.length (baseName t) = List.length t.
Proof. unfold baseName, toLowerCase, replace_non_alnum. now rewrite !length_map. Qed.

Lemma baseName_cons c t :
  baseName (c :: t) =
  (if is_alnum c then (if is_upper c then c + 32 else c)%N else underscore)
    :: baseName t.
Proof.
  unfold baseName, toLowerCase, replace_non_alnum. simpl.
  destruct (is_alnum c); reflexivity.
Qed.

(** C2, as stated, fails: the Arabic title has no ASCII letter or digit,
    and its base name is five underscores, not the empty string. *)
Lemma baseName_arabic_not_empty :
  Forall (fun c => is_alnum c = false) arabicTitle /\
  baseName arabicTitle = lit "_____" /\
  baseName arabicTitle <> [].
Proof.
  split; [repeat constructor | split; [reflexivity | discriminate]].
Qed.

(** C2 (amended): every code unit outside [a-zA-Z0-9] is replaced by an
    underscore, not removed; so for a deck title with no ASCII letter or
    digit the base name is a run of underscores as long as the title, and
    it is empty only when the title is. *)
Theorem baseName_non_alnum_underscores (deckTitle : JsString) :
  Forall (fun c => is_alnum c = false) deckTitle ->
  baseName deckTitle = repeat underscore (List.length deckTitle) /\
  (baseName deckTitle = [] <-> deckTitle = []).
Proof.
  intros H. split.
  - induction H as [|c t Hc _ IH]; [reflexivity|].
    rewrite baseName_cons, Hc, IH. reflexivity.
  - split; intros E.
    + apply (f_equal (@List.length _)) in E. rewrite baseName_length in E.
      destruct deckTitle; [reflexivity | discriminate].
    + subst. reflexivity.
Qed.

Lemma baseName_non_alnum_underscores_witness :
  Forall (fun c => is_alnum c = false) arabicTitle /\
  baseName arabicTitle = repeat underscore 5.
Proof.
  split; [repeat constructor|].
  apply (baseName_non_alnum_underscores arabicTitle). repeat constructor.
Defined.

(* ------------------------------------------------------------------ *)
(** *** [parseInt] on a string that starts with decimal digits *)

Lemma digit_value_decimal c :
  is_digit c = true -> digit_value 10 c = Some (Z.of_N c - 48)%Z.
Proof.
  intros H. unfold digit_value. rewrite H.
  apply is_digit_spec in H.
  destruct (Z.ltb_spec (Z.of_N c - 48) 10); [reflexivity | lia].
Qed.

Lemma digit_value_not_decimal c :
  is_digit c = false -> digit_value 10 c = None.
Proof.
  intros H. unfold digit_value. rewrite H.
  destruct (is_lower c) eqn:L.
  - apply between_spec in L.
    destruct (Z.ltb_spec (Z.of_N c - 97 + 10) 10); [lia | reflexivity].
  - destruct (is_upper c) eqn:U; [|reflexivity].
    apply between_spec in U.
    destruct (Z.ltb_spec (Z.of_N c - 65 + 10) 10); [lia | reflexivity].
Qed.

Lemma digit_not_whitespace c : is_digit c = true -> is_whitespace c = false.
Proof.
  intros H. apply is_digit_spec in H. unfold is_whitespace, cu_eqb.
  repeat (apply orb_false_iff; split);
    try (apply N.eqb_neq; lia);
    (destruct (between _ _ c) eqn:B; [apply between_spec in B; lia | reflexivity]).
Qed.

Lemma digits_decimal_prefix (ds rest : JsString) :
  Forall (fun c => is_digit c = true) ds ->
  noDigitAhead rest = true ->
  forall seen acc,
    (ds <> [] \/ seen = true) ->
    digits 10 (ds ++ rest) seen acc =
    Some (fold_left (fun a c => (a * 10 + (Z.of_N c - 48))%Z) ds acc).
Proof.
  intros Hds Hrest. induction Hds as [|c ds Hc _ IH]; intros seen acc Hs.
  - destruct Hs as [Hs|Hs]; [congruence|]. subst seen. simpl.
    destruct rest as [|c rest]; [reflexivity|]. simpl in *.
    rewrite digit_value_not_decimal; [reflexivity|].
    now destruct (is_digit c).
  - simpl. rewrite (digit_value_decimal c Hc). apply IH. now right.
Qed.

Lemma trimStart_whitespace (ws s : JsString) :
  Forall (fun c => is_whitespace c = true) ws ->
  trimStart (ws ++ s) = trimStart s.
Proof.
  induction 1 as [|c ws Hc _ IH]; [reflexivity|]. simpl. now rewrite Hc.
Qed.

(** [parseInt] reads the leading decimal digits and stops at the first
    other code unit, after any leading white space. *)
Lemma parseInt_decimal_prefix (ws ds rest : JsString) :
  Forall (fun c => is_whitespace c = true) ws ->
  Forall (fun c => is_digit c = true) ds ->
  ds <> [] ->
  noDigitAhead rest = true ->
  (1 <= decimal ds)%Z ->
  parseInt (ws ++ ds ++ rest) = Int (decimal ds).
Proof.
  intros Hws Hds Hne Hrest Hpos.
  unfold parseInt. rewrite (trimStart_whitespace ws _ Hws).
  destruct ds as [|c0 ds]; [congruence|].
  inversion Hds as [|? ? Hc0 Hds']; subst.
  pose proof (proj1 (is_digit_spec c0) Hc0) as R0.
  cbn [app trimStart]. rewrite (digit_not_whitespace c0 Hc0).
  assert (E45 : cu_eqb c0 45 = false) by (apply N.eqb_neq; lia).
  assert (E43 : cu_eqb c0 43 = false) by (apply N.eqb_neq; lia).
  rewrite E45, E43. cbn [orb].
  match goal with
  | |- context [fst ?m] =>
      assert (Hhex : m = (10%Z, c0 :: ds ++ rest))
  end.
  { destruct ds as [|c1 ds].
    - (* one digit: it is not 0 *)
      assert (cu_eqb c0 48 = false) as ->.
      { apply N.eqb_neq. intros ->. unfold decimal in Hpos. simpl in Hpos. lia. }
      simpl. now destruct rest.
    - inversion Hds' as [|? ? Hc1 _]; subst.
      apply is_digit_spec in Hc1. simpl.
      assert (cu_eqb c1 120 = false) as -> by (apply N.eqb_neq; lia).
      assert (cu_eqb c1 88 = false) as -> by (apply N.eqb_neq; lia).
      now rewrite andb_false_r. }
  rewrite Hhex. cbn [fst snd].
  change (c0 :: ds ++ rest) with ((c0 :: ds) ++ rest).
  rewrite (digits_decimal_prefix _ _ Hds Hrest); [|now left].
  unfold decimal. f_equal. lia.
Qed.

End JsFacts.

(* ================================================================== *)
(** ** The deck: structure and geometry *)
(* ================================================================== *)

Module DeckFacts.
Import Js Pptx Deck Layout.
Local Open Scope string_scope.
Local Open Scope list_scope.

Lemma update_nth_last {A} (f : A -> A) (l : list A) (x : A) :
  update_nth (List.length l) f (l ++ [x]) = l ++ [f x].
Proof. induction l as [|a l IH]; simpl; [reflexivity | now rewrite IH]. Qed.

(** Unfold the slide of [s] and split on the three conditions of the
    [forEach] body: image present, examples present, notes present. *)
Ltac slide_cases s :=
  unfold slideFor, contentSlide, addSlide;
  destruct (truthy_opt (imageBase64 s)) eqn:?Himage;
  destruct (Nat.ltb 0 (List.length (examples s))) eqn:?Hexamples;
  destruct (truthy (speakerNotes s)) eqn:?Hnotes.

Ltac unfold_calls :=
  unfold addText, addImage, addShape, addNotes, set_background, onSlide;
  cbn [slides rtlMode layout newPres List.length app].

(** [contentSlide] leaves the slides already there and appends one. *)
Lemma contentSlide_appends (s : SlideWithImage) (pres : Pres) :
  slides (contentSlide s pres) = slides pres ++ [slideFor s].
Proof.
  slide_cases s; unfold_calls;
    rewrite ?update_nth_last; cbn [update_nth hd]; reflexivity.
Qed.

Lemma titleSlide_appends (deckTitle : JsString) (pres : Pres) :
  slides (titleSlide deckTitle pres) = slides pres ++ [coverFor deckTitle].
Proof.
  unfold coverFor, titleSlide, addSlide. unfold_calls.
  rewrite ?update_nth_last. cbn [update_nth hd]. reflexivity.
Qed.

Lemma forEach_contentSlide (sws : list SlideWithImage) (pres : Pres) :
  slides (fold_left (fun pres s => contentSlide s pres) sws pres) =
  slides pres ++ map slideFor sws.
Proof.
  revert pres. induction sws as [|s sws IH]; intros pres; simpl.
  - now rewrite app_nil_r.
  - rewrite IH, contentSlide_appends, <- app_assoc. reflexivity.
Qed.

Lemma buildDeck_slides (deckTitle : JsString) (sws : list SlideWithImage) :
  slides (buildDeck deckTitle sws) = coverFor deckTitle :: map slideFor sws.
Proof.
  unfold buildDeck. rewrite forEach_contentSlide, titleSlide_appends.
  reflexivity.
Qed.

Lemma examples_nonempty (s : SlideWithImage) :
  Nat.ltb 0 (List.length (examples s)) = true <-> examples s <> [].
Proof.
  destruct (examples s); cbn; split; intros H;
    try discriminate; try reflexivity; now exfalso.
Qed.

Lemma map_fst_runs {B} (f : JsString -> B) (l : list JsString) :
  map fst (map (fun b => (b, f b)) l) = l.
Proof. induction l; simpl; congruence. Qed.

Lemma Forall_runs (P : Props -> Prop) (opts : Props) (l : list JsString) :
  P opts -> Forall (fun r => P (snd r)) (map (fun b => (b, opts)) l).
Proof. intros H. induction l; simpl; constructor; auto. Qed.

(** Without an image the image column holds the fallback rectangle and its
    caption. *)
Lemma placeholder_column (s : SlideWithImage) :
  if truthy_opt (imageBase64 s) then True
  else exists o1 o2,
      filter inImageColumn (objects (slideFor s)) =
      [shape rect o1; text (Plain noImageCaption) o2].
Proof. slide_cases s; cbn; eauto. Qed.

(** The deck "Vectors" with the one record without image or examples has
    two slides; the second has three objects in the image column and text
    column (rectangle, caption, bullets) after its title, none below. *)
Example deck_without_image :
  List.length (slides (buildDeck (lit "Vectors") [exampleSlideNoImage])) = 2 /\
  List.length (objects (slideFor exampleSlideNoImage)) = 4 /\
  List.length (filter inImageColumn (objects (slideFor exampleSlideNoImage))) = 2 /\
  filter inExamplesBand (objects (slideFor exampleSlideNoImage)) = [].
Proof. repeat split. Qed.

(** The record with an example and an illustration gives exactly five
    objects: title, image, bullets, label, list. *)
Example slide_with_image_and_example :
  map (fun o => match o with
                | text (Plain _) _ => 0
                | text (Runs _) _ => 1
                | image _ => 2
                | shape _ _ => 3
                end) (objects (slideFor exampleSlide)) = [0; 2; 1; 0; 1].
Proof. reflexivity. Qed.

(** C1: in the content slide of every record, whatever is placed in the
    image column has the box (MARGIN, contentY, imageWidth, contentHeight):
    the image when there is one, the fallback rectangle and its caption
    when there is none.  The objects outside the image column do not depend
    on the image at all. *)
Theorem placeholder_parity (s : SlideWithImage) :
  let column := filter inImageColumn (objects (slideFor s)) in
  Forall (fun o => box o = imageColumnBox) column /\
  (if truthy_opt (imageBase64 s)
   then exists opts, column = [image opts] /\
                     get "data" opts = Some (of_opt (imageBase64 s))
   else exists o1 o2, column = [shape rect o1; text (Plain noImageCaption) o2]) /\
  (forall img,
     filter (fun o => negb (inImageColumn o))
            (objects (slideFor (withImage (slideData s) img))) =
     filter (fun o => negb (inImageColumn o)) (objects (slideFor s))).
Proof.
  cbv zeta. split; [|split].
  - slide_cases s; cbn; repeat constructor.
  - slide_cases s; cbn; eauto.
  - intros img. destruct s as [t b e d n i].
    unfold slideFor, contentSlide, addSlide, withImage, slideData.
    cbn [title bullets examples imageDescription speakerNotes imageBase64
         sd_title sd_bullets sd_examples sd_imageDescription sd_speakerNotes].
    destruct (truthy_opt img), (truthy_opt i), e, n; cbn; reflexivity.
Qed.

(** What the code sets for fitting: the bullets object (the one object of
    the text column) and the examples list are built with
    [shrinkText: true] and a full box
    (x, y, w, h), whatever the strings are; so is every object built from
    an array of runs. *)
Theorem shrink_to_fit (s : SlideWithImage) :
  (exists rs opts,
     filter inTextColumn (objects (slideFor s)) = [text (Runs rs) opts] /\
     map fst rs = bullets s /\
     get "shrinkText" opts = Some (Bool true) /\
     box (text (Runs rs) opts) =
       (Some (Num textX), Some (Num contentY),
        Some (Num textWidth), Some (Num contentHeight))) /\
  (match examples s with
   | [] => True
   | _ :: _ =>
       exists rs opts,
         In (text (Runs rs) opts)
            (filter inExamplesBand (objects (slideFor s))) /\
         map fst rs = examples s /\
         get "shrinkText" opts = Some (Bool true) /\
         box (text (Runs rs) opts) =
           (Some (Num MARGIN), Some (Num (examplesY + 0.3)),
            Some (Num fullContentWidth), Some (Num (examplesHeight - 0.3)))
   end) /\
  Forall (fun o => if isRuns o
                   then get "shrinkText" (options o) = Some (Bool true)
                   else True)
         (objects (slideFor s)).
Proof.
  split; [|split].
  - slide_cases s; cbn; do 2 eexists;
      (split; [reflexivity
              | split; [apply map_fst_runs | split; reflexivity]]).
  - destruct (examples s) as [|e es] eqn:E; [exact I|].
    unfold slideFor, contentSlide, addSlide. rewrite E.
    destruct (truthy_opt (imageBase64 s)), (truthy (speakerNotes s));
      cbn -[In]; do 2 eexists;
      (split; [right; left; reflexivity
              | split; [apply (map_fst_runs _ (e :: es))
                       | split; reflexivity]]).
  - slide_cases s; cbn; repeat constructor.
Qed.

(** C4: the objects of the examples band (those placed at [examplesY] or
    below) are none when [examples] is empty, and otherwise exactly the
    label followed by one list of numbered runs holding the examples. *)
Theorem examples_omission (s : SlideWithImage) :
  let band := filter inExamplesBand (objects (slideFor s)) in
  match examples s with
  | [] => band = []
  | _ :: _ =>
      exists labelOpts rs listOpts,
        band = [text (Plain examplesLabel) labelOpts;
                text (Runs rs) listOpts] /\
        map fst rs = examples s /\
        Forall (fun r => get "bullet" (snd r) =
                         Some (Obj [("type", Str (lit "number"))])) rs
  end.
Proof.
  cbv zeta. destruct (examples s) as [|e es] eqn:E;
    unfold slideFor, contentSlide, addSlide; rewrite E;
    destruct (truthy_opt (imageBase64 s)), (truthy (speakerNotes s));
    cbn; try reflexivity;
    do 3 eexists;
    (split; [reflexivity
            | split; [apply (map_fst_runs _ (e :: es))
                     | apply (Forall_runs
                                (fun o => get "bullet" o =
                                          Some (Obj [("type", Str (lit "number"))]))
                                _ (e :: es)); reflexivity]]).
Qed.

(** C5: the deck is the title slide followed by the content slides of the
    records, in the order of the records; the title slide carries the deck
    title and the attribution; in a content slide the bullets object holds
    the bullets in their order and the examples band the examples in
    theirs. *)
Theorem deck_structure_and_order
    (deckTitle : JsString) (slidesWithImages : list SlideWithImage) :
  slides (buildDeck deckTitle slidesWithImages) =
    coverFor deckTitle :: map slideFor slidesWithImages /\
  (exists o1 o2,
     objects (coverFor deckTitle) =
       [text (Plain deckTitle) o1; text (Plain attribution) o2]) /\
  (forall s,
     (exists opts rest,
        objects (slideFor s) = text (Plain (title s)) opts :: rest) /\
     flat_map runTexts (filter inTextColumn (objects (slideFor s))) =
       bullets s /\
     flat_map runTexts (filter inExamplesBand (objects (slideFor s))) =
       examples s).
Proof.
  split; [apply buildDeck_slides | split].
  - unfold coverFor, titleSlide, addSlide. cbn. eauto.
  - intros s. split; [|split].
    + slide_cases s; cbn; eauto.
    + slide_cases s; cbn; rewrite app_nil_r; apply map_fst_runs.
    + destruct (examples s) as [|e es] eqn:E;
        unfold slideFor, contentSlide, addSlide; rewrite E;
        destruct (truthy_opt (imageBase64 s)), (truthy (speakerNotes s));
        cbn; try reflexivity;
        rewrite app_nil_r; apply (map_fst_runs _ (e :: es)).
Qed.

(** C8, on the code: for every record with examples the list of the
    examples band has the full content width (9), and the label has
    [textWidth] (about 5.6), which is less. *)
Theorem examples_band_widths (s : SlideWithImage) :
  examples s <> [] ->
  map wOf (filter inExamplesBand (objects (slideFor s))) =
    [Some textWidth; Some fullContentWidth] /\
  PrimFloat.ltb textWidth fullContentWidth = true /\
  textWidth <> fullContentWidth.
Proof.
  intros H. split; [|split].
  - apply examples_nonempty in H.
    unfold slideFor, contentSlide, addSlide. rewrite H.
    destruct (truthy_opt (imageBase64 s)), (truthy (speakerNotes s));
      cbn; reflexivity.
  - reflexivity.
  - intros E.
    apply (f_equal (fun f => PrimFloat.ltb f fullContentWidth)) in E.
    vm_compute in E. discriminate.
Qed.

Lemma examples_band_widths_witness :
  examples exampleSlide <> [] /\
  map wOf (filter inExamplesBand (objects (slideFor exampleSlide))) =
    [Some textWidth; Some fullContentWidth].
Proof.
  split; [discriminate|].
  apply (examples_band_widths exampleSlide). discriminate.
Defined.

End DeckFacts.

(* ================================================================== *)
(** ** The flow: validation, image fetches, degradation *)
(* ================================================================== *)

Module FlowFacts.
Import Js Pptx Deck Runtime Gemini App Layout.
Local Open Scope list_scope.

Lemma withLogs_nil (w : World) : withLogs w [] [] = w.
Proof. destruct w. unfold withLogs. cbn. now rewrite !app_nil_r. Qed.

Lemma withLogs_withLogs (w : World) r1 c1 r2 c2 :
  withLogs (withLogs w r1 c1) r2 c2 = withLogs w (r1 ++ r2) (c1 ++ c2).
Proof. unfold withLogs. cbn. now rewrite <- !app_assoc. Qed.

Lemma log_request_withLogs (r : Request) (w : World) :
  log_request r w = withLogs w [r] [].
Proof. unfold log_request, withLogs. now rewrite app_nil_r. Qed.

Lemma log_console_withLogs (c : ConsoleEntry) (w : World) :
  log_console c w = withLogs w [] [c].
Proof. unfold log_console, withLogs. now rewrite app_nil_r. Qed.

(** Put every log step in the form [withLogs w rs cs]. *)
Ltac logs :=
  rewrite ?log_request_withLogs, ?log_console_withLogs, ?withLogs_withLogs;
  cbn [app].

(** Run the straight-line part of a computation. *)
Ltac run_flow :=
  cbv beta iota zeta delta
    [bind try_catch try_finally modify ret throw
     aiMessage Date_now addMessage models_generateContent writeFile
     generateDeck generatePresentationContent getAiClient
     handlePresentationFlow flowBody withLogs
     setPresentationStep setPresentationTopic setIsLoading setMessages
     log_request log_console log_file tick
     requests console files ticks messages isLoading presentationStep
     presentationTopic contentRequest negb ViewState_eqb].



Section Service.
Variable env : Env.
Hypothesis Hkey : truthy_opt (apiKey env) = true.

(** With an API key, [generateSlideImage] returns: the first request is
    sent, perhaps the fallback one, nothing is thrown; an image is
    returned only when a reply for this prompt delivered it. *)
Lemma generateSlideImage_returns (prompt : JsString) (w : World) :
  exists img extra cs,
    generateSlideImage env prompt w =
      (Ok img, withLogs w (imageRequest prompt :: extra) cs) /\
    (extra = [] \/ extra = [fallbackRequest prompt]) /\
    Forall (fun c => isFlowError c = false) cs /\
    match img with
    | None => True
    | Some _ =>
        exists h req r,
          contents req = SlideImagePrompt prompt /\
          generateContent env h req = Resolved r /\
          extractImageFromResponse r = img
    end.
Proof.
  unfold generateSlideImage, getAiClient. rewrite Hkey. cbn [negb].
  unfold bind, try_catch, ret, modify, models_generateContent.
  fold (imageRequest prompt). fold (fallbackRequest prompt).
  destruct (generateContent env (requests w) (imageRequest prompt))
    as [r|e] eqn:E1.
  - exists (extractImageFromResponse r), [], []. logs.
    repeat split; auto.
    destruct (extractImageFromResponse r) eqn:X; [|exact I].
    exists (requests w), (imageRequest prompt), r. auto.
  - destruct (status_is (RemoteError e) 403
              || message_includes (RemoteError e) (lit "PERMISSION_DENIED")
              || status_is (RemoteError e) 404).
    + cbn [requests log_console log_request].
      destruct (generateContent env (requests w ++ [imageRequest prompt])
                  (fallbackRequest prompt)) as [r|e2] eqn:E2.
      * exists (extractImageFromResponse r), [fallbackRequest prompt],
          [warn_fallback]. logs.
        repeat split; auto.
        destruct (extractImageFromResponse r) eqn:X; [|exact I].
        exists (requests w ++ [imageRequest prompt]),
          (fallbackRequest prompt), r. auto.
      * exists None, [fallbackRequest prompt],
          [warn_fallback; error_fallback_failed (RemoteError e2)]. logs.
        repeat split; auto.
    + exists None, [], [error_image_generation (RemoteError e)]. logs.
      repeat split; auto.
Qed.

(** The content of the deck arrives only with an API key: the image loop
    is never reached without one. *)
Lemma content_needs_key (topic : JsString) (count : JsInt)
    (w w' : World) (data : PresentationData) :
  generatePresentationContent env topic count w = (Ok data, w') ->
  truthy_opt (apiKey env) = true.
Proof.
  unfold generatePresentationContent, getAiClient, bind, throw.
  destruct (truthy_opt (apiKey env)); [reflexivity | discriminate].
Qed.

(** With an API key, the image loop returns: one record per slide, in the
    order of the slides; the first-attempt requests are those of the slides
    with a description, in that order; nothing is thrown. *)
Lemma fetchImages_returns (slides : list SlideData) :
  forall (acc : list SlideWithImage) (w : World),
  exists imgs rs cs,
    fetchImages env slides acc w =
      (Ok (acc ++ withImages slides imgs), withLogs w rs cs) /\
    List.length imgs = List.length slides /\
    Forall2 (imageFrom env) slides imgs /\
    map contents (filter isImageRequest rs) =
      map SlideImagePrompt (filter truthy (map sd_imageDescription slides)) /\
    Forall (fun c => isFlowError c = false) cs.
Proof.
  induction slides as [|slide rest IH]; intros acc w.
  - exists [], [], []. cbn. rewrite app_nil_r, withLogs_nil.
    repeat split; constructor.
  - cbn [fetchImages]. unfold bind at 1.
    destruct (truthy (sd_imageDescription slide)) eqn:T.
    + destruct (generateSlideImage_returns (sd_imageDescription slide) w)
        as (img & extra & cs & -> & Hextra & Hcs & Himg).
      destruct (IH (acc ++ [withImage slide img])
                   (withLogs w (imageRequest (sd_imageDescription slide) :: extra) cs))
        as (imgs & rs' & cs' & -> & Hlen & Hfrom & Hreq & Hcs').
      exists (img :: imgs),
        ((imageRequest (sd_imageDescription slide) :: extra) ++ rs'),
        (cs ++ cs').
      rewrite withLogs_withLogs, <- app_assoc.
      split; [reflexivity|]. split; [cbn; congruence|].
      split; [|split].
      * constructor; [|assumption].
        destruct img; [split; [assumption | exact Himg] | exact I].
      * cbn [map filter app isImageRequest imageRequest model].
        rewrite T. cbn [map]. f_equal.
        destruct Hextra as [-> | ->]; cbn; assumption.
      * apply Forall_app; split; assumption.
    + unfold ret.
      destruct (IH (acc ++ [withImage slide None]) w)
        as (imgs & rs' & cs' & -> & Hlen & Hfrom & Hreq & Hcs').
      exists (None :: imgs), rs', cs'.
      rewrite <- app_assoc.
      split; [reflexivity|]. split; [cbn; congruence|].
      split; [|split].
      * constructor; [exact I | assumption].
      * cbn [map filter]. rewrite T. assumption.
      * assumption.
Qed.


(** The flow on an accepted count, whatever the service does next: it
    returns, the first thing asked of the service is the content for that
    count, and the first message names that count. *)
Lemma flow_asks_for_count (input : JsString) (w : World) :
  presentationStep w = COUNT ->
  countRejected (parseInt input) = false ->
  exists rs ms w',
    handlePresentationFlow env input w = (Ok tt, w') /\
    requests w' =
      requests w ++
      contentRequest (presentationTopic w) (parseInt input) :: rs /\
    map Runtime.text (messages w' PRESENTATION) =
      map Runtime.text (messages w PRESENTATION) ++
      Generating (presentationTopic w) (parseInt input) :: ms.
Proof.
  intros Hstep Hcount.
  destruct w as [st tp ms ld rq cn fl tk]. cbn in Hstep. subst st.
  run_flow. rewrite Hcount. run_flow. rewrite Hkey. run_flow.
  match goal with
  | |- context [generateContent env rq ?req] =>
      destruct (generateContent env rq req) as [r|e]
  end; run_flow.
  - destruct (JSON_parse env (response_text r)) as [data|]; run_flow.
    + match goal with
      | |- context [fetchImages env ?sl ?acc ?W] =>
          destruct (fetchImages_returns sl acc W)
            as (imgs & rs & cs & -> & _)
      end.
      run_flow. cbn [app].
      exists rs. eexists. eexists. split; [reflexivity|].
      split; [now rewrite <- app_assoc|].
      rewrite !map_app, <- app_assoc. reflexivity.
    + exists []. eexists. eexists. split; [reflexivity|].
      split; [reflexivity|].
      rewrite !map_app, <- app_assoc. reflexivity.
  - exists []. eexists. eexists. split; [reflexivity|].
    split; [reflexivity|].
    rewrite !map_app, <- app_assoc. reflexivity.
Qed.

End Service.

(** The flow on a rejected count: a message, and nothing else. *)
Lemma flow_rejects (env : Env) (input : JsString) (w : World) :
  presentationStep w = COUNT ->
  countRejected (parseInt input) = true ->
  exists w',
    handlePresentationFlow env input w = (Ok tt, w') /\
    requests w' = requests w /\
    console w' = console w /\
    files w' = files w /\
    presentationStep w' = COUNT /\
    presentationTopic w' = presentationTopic w /\
    map Runtime.text (messages w' PRESENTATION) =
      map Runtime.text (messages w PRESENTATION) ++ [InvalidCount] /\
    isLoading w' = false.
Proof.
  intros Hstep Hcount.
  destruct w as [st tp ms ld rq cn fl tk]. cbn in Hstep. subst st.
  run_flow. rewrite Hcount. run_flow.
  eexists. split; [reflexivity|]. cbn.
  repeat split. now rewrite map_app.
Qed.

Lemma countRejected_spec (count : JsInt) :
  countRejected count = false <->
  exists n, count = Int n /\ (1 <= n <= 20)%Z.
Proof.
  unfold countRejected. destruct count as [|z]; simpl.
  - split; [discriminate | intros (n & E & _); discriminate].
  - rewrite orb_false_iff, !Z.ltb_ge. split.
    + intros [H1 H2]. exists z. split; [reflexivity | lia].
    + intros (n & E & H). injection E as ->. lia.
Qed.


(** The sample service on the input "4": of the four content slides the
    first has its image, the second (request rejected) the fallback box
    and caption, the third the image of the fallback model, the fourth
    (no description) the fallback box and caption; four requests for
    images were sent after the one for the content. *)
Example sample_flow_degrades :
  let w' := snd (handlePresentationFlow sampleEnv (lit "4") sampleWorld) in
  map (fun f => map (fun sl => List.length (filter inImageColumn (objects sl)))
                    (tl (slides (snd f)))) (files w') = [[1; 2; 1; 2]] /\
  map model (requests w') =
    [gemini_2_5_flash; gemini_3_pro_image_preview;
     gemini_3_pro_image_preview; gemini_3_pro_image_preview;
     gemini_2_5_flash_image] /\
  map Runtime.text (messages w' PRESENTATION) =
    [Generating (lit "Vectors") (Int 4); Success (lit "Vectors") 4].
Proof. vm_compute. repeat split. Qed.

(** C7: the inputs "0", "21" and "abc" are rejected; an input is accepted
    exactly when [parseInt] reads an integer from 1 to 20; and on a
    rejected input the flow sends no request, writes no file and stays at
    the COUNT step, after one message asking again. *)
Theorem count_validation :
  (countRejected (parseInt (lit "0")) = true /\
   countRejected (parseInt (lit "21")) = true /\
   countRejected (parseInt (lit "abc")) = true) /\
  (forall input,
     countRejected (parseInt input) = false <->
     exists n, parseInt input = Int n /\ (1 <= n <= 20)%Z) /\
  (forall env input w,
     presentationStep w = COUNT ->
     countRejected (parseInt input) = true ->
     exists w',
       handlePresentationFlow env input w = (Ok tt, w') /\
       requests w' = requests w /\
       console w' = console w /\
       files w' = files w /\
       presentationStep w' = COUNT /\
       presentationTopic w' = presentationTopic w /\
       map Runtime.text (messages w' PRESENTATION) =
         map Runtime.text (messages w PRESENTATION) ++ [InvalidCount] /\
       isLoading w' = false).
Proof.
  split; [repeat split; reflexivity | split].
  - intros input. apply countRejected_spec.
  - apply flow_rejects.
Qed.

Lemma count_validation_witness :
  exists w',
    handlePresentationFlow sampleEnv (lit "abc") sampleWorld = (Ok tt, w') /\
    requests w' = [] /\ files w' = [].
Proof.
  destruct (proj2 (proj2 count_validation) sampleEnv (lit "abc") sampleWorld
              eq_refl eq_refl)
    as (w' & Hrun & Hreq & _ & Hfiles & _).
  exists w'. repeat split; assumption.
Defined.

(** C9: an input that starts (after white space) with decimal digits whose
    value is from 1 to 20, and goes on with anything that is not a digit,
    is parsed to that value and accepted: the flow continues exactly as
    for that count, asks the service for that many slides and says so in
    its message. *)
Theorem lenient_count_parsing (ws ds rest : JsString) :
  Forall (fun c => is_whitespace c = true) ws ->
  Forall (fun c => is_digit c = true) ds ->
  ds <> [] ->
  noDigitAhead rest = true ->
  (1 <= decimal ds <= 20)%Z ->
  let input := ws ++ ds ++ rest in
  parseInt input = Int (decimal ds) /\
  countRejected (parseInt input) = false /\
  (forall env topic,
     flowBody env COUNT topic input =
     generateDeck env topic (Int (decimal ds))) /\
  (forall env w,
     truthy_opt (apiKey env) = true ->
     presentationStep w = COUNT ->
     exists rs ms w',
       handlePresentationFlow env input w = (Ok tt, w') /\
       requests w' =
         requests w ++
         contentRequest (presentationTopic w) (Int (decimal ds)) :: rs /\
       map Runtime.text (messages w' PRESENTATION) =
         map Runtime.text (messages w PRESENTATION) ++
         Generating (presentationTopic w) (Int (decimal ds)) :: ms).
Proof.
  intros Hws Hds Hne Hrest Hrange input.
  assert (Hparse : parseInt input = Int (decimal ds))
    by (apply JsFacts.parseInt_decimal_prefix; auto; lia).
  assert (Hok : countRejected (parseInt input) = false)
    by (apply countRejected_spec; eauto).
  split; [exact Hparse | split; [exact Hok | split]].
  - intros env topic. unfold flowBody. cbv zeta. rewrite Hok, Hparse.
    reflexivity.
  - intros env w Hkey Hstep. rewrite <- Hparse.
    apply (flow_asks_for_count env Hkey input w Hstep Hok).
Qed.

Lemma lenient_count_parsing_witness :
  parseInt (lit "7abc") = Int 7 /\ parseInt (lit "5.9") = Int 5 /\
  countRejected (parseInt (lit "7abc")) = false /\
  countRejected (parseInt (lit "5.9")) = false.
Proof.
  assert (H7 := lenient_count_parsing [] (lit "7") (lit "abc")).
  assert (H5 := lenient_count_parsing [] (lit "5") (lit ".9")).
  cbv zeta in H7, H5.
  destruct H7 as (P7 & R7 & _);
    [constructor | repeat constructor | discriminate | reflexivity
    | cbv; split; discriminate |].
  destruct H5 as (P5 & R5 & _);
    [constructor | repeat constructor | discriminate | reflexivity
    | cbv; split; discriminate |].
  repeat split; assumption.
Defined.

(** C10: for a slide record whose [imageDescription] is empty the loop
    sends nothing: the world after that slide is the world before it, the
    record gets [imageBase64 = null], and its slide has the fallback box
    and caption in the image column. *)
Theorem empty_description_short_circuits
    (env : Env) (slide : SlideData) (rest : list SlideData)
    (acc : list SlideWithImage) (w : World) :
  sd_imageDescription slide = [] ->
  fetchImages env (slide :: rest) acc w =
    fetchImages env rest (acc ++ [withImage slide None]) w /\
  fetchImages env [slide] acc w = (Ok (acc ++ [withImage slide None]), w) /\
  imageBase64 (withImage slide None) = None /\
  exists o1 o2,
    filter inImageColumn (objects (slideFor (withImage slide None))) =
    [shape rect o1; Pptx.text (Plain noImageCaption) o2].
Proof.
  intros H. repeat split.
  - cbn [fetchImages]. rewrite H. reflexivity.
  - cbn [fetchImages]. rewrite H. reflexivity.
  - apply (DeckFacts.placeholder_column (withImage slide None)).
Qed.

Lemma empty_description_short_circuits_witness :
  fetchImages sampleEnv [mkSlideData (lit "s4") [] [] [] []] [] sampleWorld =
  (Ok [withImage (mkSlideData (lit "s4") [] [] [] []) None], sampleWorld).
Proof.
  apply (empty_description_short_circuits sampleEnv
           (mkSlideData (lit "s4") [] [] [] []) [] [] sampleWorld eq_refl).
Defined.

End FlowFacts.

(* ================================================================== *)
(** ** More on the deck: margins, notes, file name *)
(* ================================================================== *)

Module DeckMore.
Import Js Pptx Deck Layout Geometry DeckFacts.
Local Open Scope string_scope.
Local Open Scope list_scope.

(** X1: Every object of every content slide lies between the left and the
    right margin and above the bottom margin, with its top edge on the
    slide; the title band starts at 0.3, above the top margin of 0.5.  The
    one object of the text column ends exactly at the right margin, and
    the examples list, when there is one, exactly at the bottom margin.
    No two objects of a slide share an area, except the fallback
    rectangle and its caption, which have one box. *)
Theorem content_slide_boxes (s : SlideWithImage) :
  let os := objects (slideFor s) in
  forallb betweenMargins os = true /\
  disjointExceptFallback os = true /\
  map rightEdge (filter inTextColumn os) =
    [Some (SLIDE_WIDTH - MARGIN)%float] /\
  (match examples s with
   | [] => True
   | _ :: _ =>
       exists label list,
         filter inExamplesBand os = [label; list] /\
         bottomEdge list = Some (SLIDE_HEIGHT - MARGIN)%float
   end) /\
  (exists titleBand rest,
     os = titleBand :: rest /\
     yOf titleBand = Some 0.3%float /\
     PrimFloat.ltb 0.3 MARGIN = true).
Proof.
  cbv zeta. split; [|split; [|split; [|split]]].
  - slide_cases s; cbn; reflexivity.
  - slide_cases s; cbn; reflexivity.
  - slide_cases s; cbn; reflexivity.
  - destruct (examples s) as [|e es] eqn:E; [exact I|].
    unfold slideFor, contentSlide, addSlide. rewrite E.
    destruct (truthy_opt (imageBase64 s)), (truthy (speakerNotes s));
      cbn; do 2 eexists; (split; reflexivity).
  - slide_cases s; cbn; do 2 eexists; repeat split.
Qed.

(** X2: Speaker notes are attached to the slide and are no object of it: the
    notes of the slide are the notes of the record when these are not
    empty, and none otherwise; the objects and the white background are
    the same whatever the notes. *)
Theorem notes_are_not_objects (s : SlideWithImage) (n : JsString) :
  notes (slideFor s) =
    (if truthy (speakerNotes s) then [speakerNotes s] else []) /\
  background (slideFor s) = Some [("color", Str (lit "FFFFFF"))] /\
  objects (slideFor (withNotes s n)) = objects (slideFor s).
Proof.
  destruct s as [t b e d sn i]. destruct n, sn;
    unfold slideFor, contentSlide, addSlide, withNotes;
    cbn [title bullets examples imageDescription speakerNotes imageBase64];
    destruct (truthy_opt i), e; cbn; repeat split.
Qed.

(** X3: Adding a content slide to any presentation leaves its settings and the
    slides already there as they are: the calls made through the new slide
    reach that slide only.  A built deck is right-to-left, 16x9. *)
Theorem content_slide_touches_only_itself (s : SlideWithImage) (pres : Pres)
    (deckTitle : JsString) (sws : list SlideWithImage) :
  rtlMode (contentSlide s pres) = rtlMode pres /\
  layout (contentSlide s pres) = layout pres /\
  firstn (List.length (slides pres)) (slides (contentSlide s pres)) =
    slides pres /\
  List.length (slides (contentSlide s pres)) = S (List.length (slides pres)) /\
  rtlMode (buildDeck deckTitle sws) = true /\
  layout (buildDeck deckTitle sws) = Some (lit "LAYOUT_16x9").
Proof.
  assert (Hset : forall sws p,
            rtlMode (fold_left (fun pres s => contentSlide s pres) sws p) =
              rtlMode p /\
            layout (fold_left (fun pres s => contentSlide s pres) sws p) =
              layout p).
  { induction sws0 as [|s0 sws0 IH]; intros p; [split; reflexivity|].
    cbn [fold_left]. destruct (IH (contentSlide s0 p)) as [-> ->].
    split; slide_cases s0; reflexivity. }
  split; [slide_cases s; reflexivity|].
  split; [slide_cases s; reflexivity|].
  rewrite contentSlide_appends.
  split; [now rewrite firstn_app, firstn_all, Nat.sub_diag, app_nil_r|].
  split; [rewrite length_app; cbn; lia|].
  unfold buildDeck. destruct (Hset sws (titleSlide deckTitle
    (set_layout (lit "LAYOUT_16x9") (set_rtlMode true newPres)))) as [-> ->].
  split; reflexivity.
Qed.

Lemma is_alnum_lower_safe (c : code_unit) :
  is_safe (if is_alnum c then (if is_upper c then c + 32 else c)%N
           else underscore) = true.
Proof.
  unfold is_safe, is_alnum.
  destruct (is_lower c) eqn:L; cbn [orb].
  - destruct (is_upper c) eqn:U.
    + apply JsFacts.between_spec in L. apply JsFacts.between_spec in U. lia.
    + now rewrite L.
  - destruct (is_upper c) eqn:U; cbn [orb].
    + apply JsFacts.between_spec in U.
      assert (is_lower (c + 32)%N = true) as ->
        by (apply JsFacts.between_spec; lia).
      reflexivity.
    + destruct (is_digit c) eqn:D.
      * rewrite L, D. reflexivity.
      * reflexivity.
Qed.

(** X4: The base name of the exported file has one code unit per code unit of
    the deck title, each a lower-case ASCII letter, a digit or an
    underscore; sanitising it again changes nothing. *)
Theorem baseName_is_safe (deckTitle : JsString) :
  Forall (fun c => is_safe c = true) (baseName deckTitle) /\
  List.length (baseName deckTitle) = List.length deckTitle /\
  baseName (baseName deckTitle) = baseName deckTitle.
Proof.
  assert (Hsafe : Forall (fun c => is_safe c = true) (baseName deckTitle)).
  { induction deckTitle as [|c t IH]; [constructor|].
    rewrite JsFacts.baseName_cons. constructor; [|exact IH].
    apply is_alnum_lower_safe. }
  split; [exact Hsafe | split; [apply JsFacts.baseName_length|]].
  induction Hsafe as [|c t Hc _ IH]; [reflexivity|].
  rewrite JsFacts.baseName_cons, IH. f_equal.
  unfold is_safe in Hc. unfold is_alnum.
  destruct (is_lower c) eqn:L; cbn [orb] in *.
  - destruct (is_upper c) eqn:U; [|reflexivity].
    apply JsFacts.between_spec in L. apply JsFacts.between_spec in U. lia.
  - destruct (is_digit c) eqn:D; cbn [orb] in *.
    + destruct (is_upper c) eqn:U.
      * apply JsFacts.between_spec in D. apply JsFacts.between_spec in U. lia.
      * reflexivity.
    + apply N.eqb_eq in Hc. subst c. reflexivity.
Qed.

End DeckMore.

(* ================================================================== *)
(** ** More on the flow: failures, frame, composition *)
(* ================================================================== *)

Module FlowMore.
Import Js Pptx Deck Runtime Gemini App Layout Geometry FlowFacts.
Local Open Scope list_scope.

Lemma startsWith_app (p s : JsString) : startsWith (p ++ s) p = true.
Proof.
  induction p as [|c p IH]; cbn; [now destruct s|].
  unfold cu_eqb. now rewrite N.eqb_refl.
Qed.

(** X5: [extractImageFromResponse] returns the data URL of the first part with
    inline data, and null exactly when no part has any. *)
Theorem extract_first_inline_image (r : Response) :
  (extractImageFromResponse r = None <->
   Forall (fun p => inlineData p = None) (parts r)) /\
  (forall u,
     extractImageFromResponse r = Some u ->
     exists pre d post,
       parts r = pre ++ mkPart (Some d) :: post /\
       Forall (fun p => inlineData p = None) pre /\
       u = dataUrl d /\
       startsWith u (lit "data:image/png;base64,") = true).
Proof.
  unfold extractImageFromResponse. generalize (parts r) as ps.
  intros ps. split.
  - induction ps as [|[[d|]] ps IH]; cbn.
    + split; constructor.
    + split; [discriminate | intros H; inversion H; discriminate].
    + rewrite IH. split; intros H; [constructor; auto | now inversion H].
  - induction ps as [|[[d|]] ps IH]; cbn; intros u H; [discriminate| |].
    + injection H as <-. exists [], d, ps.
      split; [reflexivity | split; [apply Forall_nil | split; [reflexivity|]]].
      apply (startsWith_app (lit "data:image/png;base64,")).
    + destruct (IH u H) as (pre & d & post & -> & Hpre & -> & Hs).
      exists (mkPart None :: pre), d, post.
      split; [reflexivity | split; [constructor; auto | split; [reflexivity | exact Hs]]].
Qed.

Section WithKey.
Variable env : Env.
Hypothesis Hkey : truthy_opt (apiKey env) = true.

(** X6: With an API key [generateSlideImage] never throws.  It sends one
    request, and a second one, to the other model, exactly when the first
    was rejected with status 403 or 404 or a PERMISSION_DENIED message; it
    returns what the answered request holds, and null when the request, or
    both, were rejected. *)
Theorem slide_image_retry_rule (prompt : JsString) (w : World) :
  exists img cs,
    generateSlideImage env prompt w =
      (Ok img,
       withLogs w
         (imageRequest prompt ::
          match generateContent env (requests w) (imageRequest prompt) with
          | Rejected e => if retried e then [fallbackRequest prompt] else []
          | Resolved _ => []
          end) cs) /\
    match generateContent env (requests w) (imageRequest prompt) with
    | Resolved r => img = extractImageFromResponse r
    | Rejected e =>
        if retried e then
          match generateContent env (requests w ++ [imageRequest prompt])
                  (fallbackRequest prompt) with
          | Resolved r => img = extractImageFromResponse r
          | Rejected _ => img = None
          end
        else img = None
    end.
Proof.
  unfold generateSlideImage, getAiClient. rewrite Hkey. cbn [negb].
  unfold bind, try_catch, ret, modify, models_generateContent.
  fold (imageRequest prompt). fold (fallbackRequest prompt).
  destruct (generateContent env (requests w) (imageRequest prompt))
    as [r|e] eqn:E1.
  - exists (extractImageFromResponse r), []. logs. split; reflexivity.
  - fold (retried e). destruct (retried e).
    + cbn [requests log_console log_request].
      destruct (generateContent env (requests w ++ [imageRequest prompt])
                  (fallbackRequest prompt)) as [r|e2] eqn:E2.
      * exists (extractImageFromResponse r), [warn_fallback]. logs.
        split; reflexivity.
      * exists None, [warn_fallback; error_fallback_failed (RemoteError e2)].
        logs. split; reflexivity.
    + exists None, [error_image_generation (RemoteError e)]. logs.
      split; reflexivity.
Qed.

(** X7: With an API key the image loop returns, and the requests it sends
    are, slide after slide in the order of the slides, the requests of
    each slide: for a slide with a description the first request for that
    description, alone or followed by the fallback request for it, and for
    a slide without description none. *)
Theorem image_loop_requests (slides : list SlideData) :
  forall (acc : list SlideWithImage) (w : World),
  exists sws blocks cs,
    fetchImages env slides acc w = (Ok sws, withLogs w (List.concat blocks) cs) /\
    Forall2 requestsOfSlide slides blocks.
Proof.
  induction slides as [|slide rest IH]; intros acc w.
  - exists acc, [], []. cbn. rewrite withLogs_nil. split; constructor.
  - cbn [fetchImages]. unfold bind at 1.
    destruct (truthy (sd_imageDescription slide)) eqn:T.
    + destruct (generateSlideImage_returns env Hkey
                  (sd_imageDescription slide) w)
        as (img & extra & cs & -> & Hextra & _).
      destruct (IH (acc ++ [withImage slide img])
                   (withLogs w (imageRequest (sd_imageDescription slide) :: extra) cs))
        as (sws & blocks & cs' & -> & Hall).
      exists sws,
        ((imageRequest (sd_imageDescription slide) :: extra) :: blocks),
        (cs ++ cs').
      rewrite withLogs_withLogs. split; [reflexivity|].
      constructor; [|exact Hall].
      unfold requestsOfSlide. rewrite T.
      destruct Hextra as [-> | ->]; [now left | now right].
    + unfold ret.
      destruct (IH (acc ++ [withImage slide None]) w)
        as (sws & blocks & cs' & -> & Hall).
      exists sws, ([] :: blocks), cs'. split; [reflexivity|].
      constructor; [|exact Hall].
      unfold requestsOfSlide. now rewrite T.
Qed.

(** X8: When the content of the deck does not arrive (the request is rejected,
    or the reply is no JSON), nothing else is asked of the service and no
    file is written: the cause goes to the console, the chat gets the
    error message, the flow is back at the TOPIC step and the topic typed
    before is kept. *)
Theorem content_failure_resets_flow (input : JsString) (w : World) :
  presentationStep w = COUNT ->
  countRejected (parseInt input) = false ->
  match generateContent env (requests w)
          (contentRequest (presentationTopic w) (parseInt input)) with
  | Rejected _ => True
  | Resolved r => JSON_parse env (response_text r) = None
  end ->
  exists cause w',
    handlePresentationFlow env input w = (Ok tt, w') /\
    requests w' =
      requests w ++ [contentRequest (presentationTopic w) (parseInt input)] /\
    files w' = files w /\
    console w' =
      console w ++
      [error_presentation_generation cause; error_flow GenerationFailed] /\
    map Runtime.text (messages w' PRESENTATION) =
      map Runtime.text (messages w PRESENTATION) ++
      [Generating (presentationTopic w) (parseInt input); FlowError] /\
    presentationStep w' = TOPIC /\
    presentationTopic w' = presentationTopic w /\
    isLoading w' = false.
Proof.
  intros Hstep Hcount Hfail.
  destruct w as [st tp ms ld rq cn fl tk]. cbn in Hstep, Hfail. subst st.
  unfold contentRequest in Hfail.
  run_flow. rewrite Hcount. run_flow. rewrite Hkey. run_flow.
  match goal with
  | |- context [generateContent env rq ?req] =>
      destruct (generateContent env rq req) as [r|e]
  end; run_flow.
  - rewrite Hfail. run_flow. exists SyntaxError. eexists.
    split; [reflexivity|]. cbn.
    repeat split; rewrite ?map_app, <- ?app_assoc; reflexivity.
  - exists (RemoteError e). eexists. split; [reflexivity|]. cbn.
    repeat split; rewrite ?map_app, <- ?app_assoc; reflexivity.
Qed.

End WithKey.
Lemma slide_image_retry_rule_witness :
  exists img cs,
    generateSlideImage sampleEnv (lit "perm") sampleWorld =
      (Ok img,
       withLogs sampleWorld
         [imageRequest (lit "perm"); fallbackRequest (lit "perm")] cs) /\
    img = Some (dataUrl (lit "QUJD")).
Proof.
  destruct (slide_image_retry_rule sampleEnv eq_refl (lit "perm") sampleWorld)
    as (img & cs & Hrun & Himg).
  exists img, cs. split; [exact Hrun | exact Himg].
Defined.

Lemma image_loop_requests_witness :
  exists sws blocks cs,
    fetchImages sampleEnv (pd_slides sampleData) [] sampleWorld =
      (Ok sws, withLogs sampleWorld (List.concat blocks) cs) /\
    Forall2 requestsOfSlide (pd_slides sampleData) blocks.
Proof.
  destruct (image_loop_requests sampleEnv eq_refl (pd_slides sampleData) []
              sampleWorld) as (sws & blocks & cs & Hrun & Hall).
  exists sws, blocks, cs. split; [exact Hrun | exact Hall].
Defined.

Lemma content_failure_resets_flow_witness :
  exists w',
    handlePresentationFlow rejectingEnv (lit "4") sampleWorld = (Ok tt, w') /\
    files w' = [] /\ presentationStep w' = TOPIC /\
    presentationTopic w' = lit "Vectors".
Proof.
  destruct (content_failure_resets_flow rejectingEnv eq_refl (lit "4")
              sampleWorld eq_refl eq_refl I)
    as (cause & w' & Hrun & _ & Hfiles & _ & _ & Hstep & Htopic & _).
  exists w'. repeat split; assumption.
Defined.

(** X9: Without an API key an accepted count ends in the [catch] of the flow
    before anything is asked of the service: one message announces the
    generation, the next reports the error, no file is written, the flow
    is back at the TOPIC step; [generateSlideImage] on its own throws. *)
Theorem missing_key_stops_flow (env : Env) (input : JsString) (w : World) :
  truthy_opt (apiKey env) = false ->
  presentationStep w = COUNT ->
  countRejected (parseInt input) = false ->
  (exists w',
     handlePresentationFlow env input w = (Ok tt, w') /\
     requests w' = requests w /\
     files w' = files w /\
     console w' = console w ++ [error_flow ApiKeyMissing] /\
     map Runtime.text (messages w' PRESENTATION) =
       map Runtime.text (messages w PRESENTATION) ++
       [Generating (presentationTopic w) (parseInt input); FlowError] /\
     presentationStep w' = TOPIC /\
     isLoading w' = false) /\
  (forall prompt,
     generateSlideImage env prompt w = (Throw ApiKeyMissing, w)).
Proof.
  intros Hkey Hstep Hcount. split.
  - destruct w as [st tp ms ld rq cn fl tk]. cbn in Hstep. subst st.
    run_flow. rewrite Hcount. run_flow. rewrite Hkey. run_flow.
    eexists. split; [reflexivity|]. cbn.
    repeat split; rewrite ?map_app, <- ?app_assoc; reflexivity.
  - intros prompt. unfold generateSlideImage, getAiClient. rewrite Hkey.
    reflexivity.
Qed.

Lemma missing_key_stops_flow_witness :
  exists w',
    handlePresentationFlow (noKeyEnv sampleEnv) (lit "4") sampleWorld =
      (Ok tt, w') /\
    requests w' = [] /\ files w' = [].
Proof.
  destruct (missing_key_stops_flow (noKeyEnv sampleEnv) (lit "4") sampleWorld
              eq_refl eq_refl eq_refl)
    as ((w' & Hrun & Hreq & Hfiles & _) & _).
  exists w'. repeat split; assumption.
Defined.

(** Close the goals about the world after a run: the messages view by
    view first, then the rest. *)
Ltac outcome :=
  cbn; repeat split;
  try (intros []; cbn; now rewrite <- ?app_assoc, ?app_nil_r);
  rewrite ?app_nil_r, <- ?app_assoc; auto;
  try lia; try discriminate; try contradiction; repeat constructor.

(** What every run of the flow does, whatever the step, the input and the
    service. *)
Lemma flow_outcome (env : Env) (input : JsString) (w : World) :
  exists news fs rs w',
    handlePresentationFlow env input w = (Ok tt, w') /\
    isLoading w' = false /\
    (forall v, messages w' v =
               messages w v ++
               (if ViewState_eqb v PRESENTATION then news else [])) /\
    Forall (fun m => sender m = AI) news /\
    List.length news <= 2 /\
    files w' = files w ++ fs /\
    List.length fs <= 1 /\
    requests w' = requests w ++ rs /\
    ticks w' = ticks w + 2 * List.length news /\
    (presentationStep w <> GENERATING ->
     presentationStep w' <> GENERATING /\ 1 <= List.length news).
Proof.
  destruct w as [st tp ms ld rq cn fl tk].
  assert (Hnil : forall A (l : list A), l = l ++ [])
    by (intros; now rewrite app_nil_r).
  destruct st.
  - (* TOPIC *)
    run_flow. eexists [_], [], [], _. split; [reflexivity|]. outcome.
  - (* COUNT *)
    run_flow. destruct (countRejected (parseInt input)); run_flow.
    { eexists [_], [], [], _. split; [reflexivity|]. outcome. }
    destruct (truthy_opt (apiKey env)) eqn:Hkey; run_flow.
    2:{ eexists [_; _], [], [], _. split; [reflexivity|]. outcome. }
    match goal with
    | |- context [generateContent env rq ?req] =>
        destruct (generateContent env rq req) as [r|e]
    end; run_flow.
    2:{ eexists [_; _], [], [_], _. split; [reflexivity|]. outcome. }
    destruct (JSON_parse env (response_text r)) as [data|]; run_flow.
    2:{ eexists [_; _], [], [_], _. split; [reflexivity|]. outcome. }
    match goal with
    | |- context [fetchImages env ?sl ?acc ?W] =>
        destruct (fetchImages_returns env Hkey sl acc W)
          as (imgs & rs & cs & -> & _)
    end.
    run_flow. cbn [app].
    eexists [_; _], [_], (_ :: rs), _. split; [reflexivity|]. outcome.
  - (* GENERATING *)
    run_flow. eexists [], [], [], _. split; [reflexivity|]. outcome.
Qed.

(** X10: The flow never throws and never leaves the component loading; from the
    TOPIC or COUNT step it never ends at the GENERATING step; it writes at
    most one file and only adds to the requests sent. *)
Theorem flow_always_returns (env : Env) (input : JsString) (w : World) :
  exists fs rs w',
    handlePresentationFlow env input w = (Ok tt, w') /\
    isLoading w' = false /\
    (presentationStep w <> GENERATING -> presentationStep w' <> GENERATING) /\
    files w' = files w ++ fs /\ List.length fs <= 1 /\
    requests w' = requests w ++ rs.
Proof.
  destruct (flow_outcome env input w)
    as (news & fs & rs & w' & Hrun & Hload & _ & _ & _ & Hfiles & Hfs
        & Hreq & _ & Hstep).
  exists fs, rs, w'. repeat split; auto. intros H. now apply Hstep.
Qed.

(** X11: The flow only adds to the chat of the presentation view, one or two
    messages of the assistant per run from the TOPIC or COUNT step (the
    announcement and the outcome, or one question), and leaves the chats
    of the other views as they are; each message reads the clock twice. *)
Theorem flow_only_appends_messages (env : Env) (input : JsString) (w : World) :
  exists news w',
    handlePresentationFlow env input w = (Ok tt, w') /\
    (forall v, v <> PRESENTATION -> messages w' v = messages w v) /\
    messages w' PRESENTATION = messages w PRESENTATION ++ news /\
    Forall (fun m => sender m = AI) news /\
    List.length news <= 2 /\
    (presentationStep w <> GENERATING -> 1 <= List.length news) /\
    ticks w' = ticks w + 2 * List.length news.
Proof.
  destruct (flow_outcome env input w)
    as (news & fs & rs & w' & Hrun & _ & Hmsg & Hai & Hlen & _ & _ & _
        & Hticks & Hstep).
  exists news, w'.
  split; [exact Hrun|]. split.
  { intros v Hv. rewrite Hmsg. destruct v; try apply app_nil_r.
    now contradiction Hv. }
  split; [apply Hmsg|]. split; [exact Hai|]. split; [exact Hlen|].
  split; [|exact Hticks]. intros H. now apply Hstep.
Qed.

(** X12: The two steps compose: the text typed at the TOPIC step is stored,
    asked back in the question for the count, and nothing is sent yet; the
    count typed next is sent to the service together with that topic. *)
Theorem topic_then_count (env : Env) (topic count : JsString) (w : World) :
  truthy_opt (apiKey env) = true ->
  presentationStep w = TOPIC ->
  countRejected (parseInt count) = false ->
  exists w1,
    handlePresentationFlow env topic w = (Ok tt, w1) /\
    presentationStep w1 = COUNT /\
    presentationTopic w1 = topic /\
    requests w1 = requests w /\
    files w1 = files w /\
    map Runtime.text (messages w1 PRESENTATION) =
      map Runtime.text (messages w PRESENTATION) ++ [AskCount topic] /\
    exists rs w2,
      handlePresentationFlow env count w1 = (Ok tt, w2) /\
      requests w2 =
        requests w ++ contentRequest topic (parseInt count) :: rs.
Proof.
  intros Hkey Hstep Hcount.
  destruct w as [st tp ms ld rq cn fl tk]. cbn in Hstep. subst st.
  eexists. split; [run_flow; reflexivity|].
  cbn [presentationStep presentationTopic requests files messages
       ViewState_eqb].
  repeat split; [now rewrite map_app|].
  match goal with
  | |- context [handlePresentationFlow env count ?w1] =>
      destruct (flow_asks_for_count env Hkey count w1 eq_refl Hcount)
        as (rs & _ & w2 & Hrun & Hreq & _)
  end.
  exists rs, w2. split; [exact Hrun | exact Hreq].
Qed.

Lemma topic_then_count_witness :
  exists w1 rs w2,
    handlePresentationFlow sampleEnv (lit "Vectors") freshWorld = (Ok tt, w1) /\
    handlePresentationFlow sampleEnv (lit "4") w1 = (Ok tt, w2) /\
    requests w2 = contentRequest (lit "Vectors") (Int 4) :: rs.
Proof.
  destruct (topic_then_count sampleEnv (lit "Vectors") (lit "4") freshWorld
              eq_refl eq_refl eq_refl)
    as (w1 & Hrun1 & _ & _ & _ & _ & _ & rs & w2 & Hrun2 & Hreq).
  exists w1, rs, w2. repeat split; assumption.
Defined.

Lemma digit_value_nonneg (r : Z) (c : code_unit) (d : Z) :
  digit_value r c = Some d -> (0 <= d)%Z.
Proof.
  unfold digit_value.
  destruct (is_digit c) eqn:D.
  - apply JsFacts.between_spec in D.
    destruct (Z.ltb _ r); intros H; inversion H; lia.
  - destruct (is_lower c) eqn:L.
    + apply JsFacts.between_spec in L.
      destruct (Z.ltb _ r); intros H; inversion H; lia.
    + destruct (is_upper c) eqn:U; [|discriminate].
      apply JsFacts.between_spec in U.
      destruct (Z.ltb _ r); intros H; inversion H; lia.
Qed.

Lemma digits_nonneg (r : Z) (s : JsString) :
  (0 <= r)%Z ->
  forall seen acc v,
    (0 <= acc)%Z -> digits r s seen acc = Some v -> (0 <= v)%Z.
Proof.
  intros Hr. induction s as [|c s IH]; intros seen acc v Hacc; cbn.
  - destruct seen; intros H; inversion H; lia.
  - destruct (digit_value r c) as [d|] eqn:D.
    + apply digit_value_nonneg in D. apply IH. nia.
    + destruct seen; intros H; inversion H; lia.
Qed.

(** X13: A count typed with a minus sign is never accepted, whatever follows:
    [parseInt] yields a negative number, zero or NaN. *)
Theorem negative_count_rejected (ws rest : JsString) :
  Forall (fun c => is_whitespace c = true) ws ->
  countRejected (parseInt (ws ++ 45%N :: rest)) = true.
Proof.
  intros Hws. unfold parseInt.
  rewrite (JsFacts.trimStart_whitespace ws _ Hws).
  cbn [trimStart is_whitespace]. cbv beta iota zeta.
  change (is_whitespace 45%N) with false. cbv iota.
  change (cu_eqb 45%N 45%N) with true. change (cu_eqb 45%N 43%N) with false.
  cbn [orb].
  match goal with
  | |- context [digits ?r ?s false 0%Z] =>
      destruct (digits r s false 0%Z) as [v|] eqn:D; [|reflexivity];
      assert (0 <= v)%Z
  end.
  { revert D. destruct rest as [|c0 [|c1 rest']]; cbn [fst snd];
      try (destruct (cu_eqb c0 48%N && (cu_eqb c1 120%N || cu_eqb c1 88%N))%bool);
      cbn [fst snd]; apply digits_nonneg; lia. }
  unfold countRejected. cbn [isNaN lt orb].
  destruct (Z.ltb_spec (-1 * v) 1); [reflexivity | lia].
Qed.

Lemma negative_count_rejected_witness :
  countRejected (parseInt (lit " -5")) = true.
Proof.
  apply (negative_count_rejected [32%N] (lit "5")). repeat constructor.
Defined.

End FlowMore.

(* ================================================================== *)
(** ** The other services *)
(* ================================================================== *)

Module ServiceFacts.
Import Js Pptx Deck Runtime Gemini App Layout Geometry Services Chat Bubble
       Samples.
Local Open Scope list_scope.

Lemma trimStart_nil_iff (s : JsString) :
  trimStart s = [] <-> Forall (fun c => is_whitespace c = true) s.
Proof.
  induction s as [|c s IH]; cbn.
  - split; constructor.
  - destruct (is_whitespace c) eqn:W.
    + rewrite IH. split; intros H; [constructor; auto | now inversion H].
    + split; [discriminate | intros H; inversion H; congruence].
Qed.

(** [trim] leaves nothing exactly when the string is white space only. *)
Lemma trim_nil_iff (s : JsString) :
  trim s = [] <-> Forall (fun c => is_whitespace c = true) s.
Proof.
  unfold trim. split.
  - intros H. apply trimStart_nil_iff.
    apply (f_equal (@rev _)) in H. rewrite rev_involutive in H. cbn in H.
    apply trimStart_nil_iff in H. apply Forall_rev in H.
    rewrite rev_involutive in H.
    destruct (trimStart s) as [|c t] eqn:E; [reflexivity|].
    exfalso. inversion H as [|? ? Hc Ht]; subst.
    assert (Hn : trimStart (c :: t) = c :: t) by (rewrite <- E; clear;
      induction s as [|a s IH]; cbn; [reflexivity|];
      destruct (is_whitespace a) eqn:W; [exact IH | cbn; now rewrite W]).
    cbn in Hn. rewrite Hc in Hn.
    apply (f_equal (@List.length _)) in Hn. cbn in Hn.
    assert (List.length (trimStart t) <= List.length t).
    { clear. induction t as [|a t IH]; cbn; [lia|].
      destruct (is_whitespace a); cbn; lia. }
    lia.
  - intros H. apply trimStart_nil_iff in H. rewrite H. reflexivity.
Qed.

Lemma removePairs_two (c a b : code_unit) (t : JsString) :
  removePairs c (a :: b :: t) =
  if cu_eqb a c && cu_eqb b c then removePairs c t
  else a :: removePairs c (b :: t).
Proof. reflexivity. Qed.

Lemma filter_removePairs (s : JsString) :
  filter (fun c => negb (is_dollar c)) (removePairs 36%N s) =
  filter (fun c => negb (is_dollar c)) s.
Proof.
  assert (H : forall n s, List.length s <= n ->
            filter (fun c => negb (is_dollar c)) (removePairs 36%N s) =
            filter (fun c => negb (is_dollar c)) s).
  { induction n as [|n IH]; intros [|a [|b t]] Hlen;
      try reflexivity; try (cbn in Hlen; lia).
    rewrite removePairs_two. fold (is_dollar a). fold (is_dollar b).
    cbn [List.length] in Hlen.
    destruct (is_dollar a) eqn:A; cbn [andb].
    - destruct (is_dollar b) eqn:B.
      + rewrite IH by lia. cbn [filter]. now rewrite A, B.
      + cbn [filter]. rewrite A. cbn [negb].
        rewrite (IH (b :: t)) by (cbn; lia). reflexivity.
    - cbn [filter]. rewrite A. cbn [negb]. f_equal.
      rewrite (IH (b :: t)) by (cbn; lia). reflexivity. }
  apply (H (List.length s)). lia.
Qed.

Lemma cleanText_filter (text : JsString) :
  cleanText text = filter (fun c => negb (is_markup c)) text.
Proof.
  unfold cleanText, removeAll. rewrite filter_removePairs.
  induction text as [|c t IH]; cbn; [reflexivity|].
  unfold is_markup. destruct (is_dollar c); cbn; [exact IH|].
  destruct (is_markdown c); cbn; [exact IH | now rewrite IH].
Qed.

(** X14: [cleanText] deletes every dollar sign and every code unit of the
    class [[*#_`]] and keeps the rest in order (deleting the pairs of
    dollar signs first changes nothing): none of these code units is left,
    and a text without them is unchanged. *)
Theorem cleanText_removes_markup (text : JsString) :
  cleanText text = filter (fun c => negb (is_markup c)) text /\
  Forall (fun c => is_markup c = false) (cleanText text) /\
  (Forall (fun c => is_markup c = false) text -> cleanText text = text).
Proof.
  split; [apply cleanText_filter | split].
  - rewrite cleanText_filter. apply Forall_forall. intros c Hc.
    apply filter_In in Hc. destruct Hc as [_ Hc].
    now destruct (is_markup c).
  - intros H. rewrite cleanText_filter.
    induction H as [|c t Hc _ IH]; cbn; [reflexivity|].
    rewrite Hc. cbn. now rewrite IH.
Qed.

Lemma cleanText_removes_markup_witness :
  cleanText (lit "plain") = lit "plain".
Proof.
  apply (proj2 (proj2 (cleanText_removes_markup (lit "plain")))).
  repeat constructor.
Defined.

Lemma split_no_comma (s : JsString) :
  has_comma s = false -> split 44%N s = [s].
Proof.
  induction s as [|c s IH]; cbn; [reflexivity|].
  destruct (cu_eqb c 44%N); cbn; [discriminate|].
  intros H. now rewrite (IH H).
Qed.

Lemma split_at_comma (header rest : JsString) :
  has_comma header = false ->
  split 44%N (header ++ 44%N :: rest) = header :: split 44%N rest.
Proof.
  induction header as [|c h IH]; cbn; [reflexivity|].
  destruct (cu_eqb c 44%N); cbn; [discriminate|].
  intros H. now rewrite (IH H).
Qed.

(** X15: [fileToBase64] gives back the payload of a data URL: what stands
    between the first comma and the next one (the whole rest when the
    payload has no comma, as in base64); a result without comma gives
    [undefined]; a reader error is thrown on. *)
Theorem fileToBase64_payload
    (St : Type) (s : St) (header payload : JsString) :
  has_comma header = false ->
  has_comma payload = false ->
  fileToBase64 (Some (header ++ 44%N :: payload)) s = (Done (Some payload), s) /\
  fileToBase64 (Some header) s = (Done None, s) /\
  fileToBase64 (S := St) None s = (Raised ReaderError, s).
Proof.
  intros Hh Hp. unfold fileToBase64, unit_, raise.
  rewrite (split_at_comma _ _ Hh), (split_no_comma _ Hp), (split_no_comma _ Hh).
  repeat split.
Qed.

Lemma fileToBase64_payload_witness :
  fileToBase64 (Some (lit "data:image/png;base64,iVBORw0KGgo=")) tt =
  (Done (Some (lit "iVBORw0KGgo=")), tt).
Proof.
  apply (fileToBase64_payload unit tt (lit "data:image/png;base64")
           (lit "iVBORw0KGgo=") eq_refl eq_refl).
Defined.

Section WithKey.
Variable env : ChatEnv.
Hypothesis Hkey : truthy_opt (apiKey (flowEnv env)) = true.

Lemma generateSpeech_blank (text : JsString) (n : Net) :
  Forall (fun c => is_whitespace c = true) text ->
  generateSpeech env text n = (Raised TextIsEmpty, n).
Proof.
  unfold generateSpeech, client. rewrite Hkey. cbn [negb].
  unfold and_then, unit_, raise.
  intros H. apply trim_nil_iff in H. rewrite H. now rewrite orb_true_r.
Qed.

(** X16: [generateSpeech] with an API key: a text of white space only (or no
    text) is refused before anything is sent; any other text is sent once,
    cut to its first 500 code units; what comes back is bytes, or one of
    three errors. *)
Theorem speech_text_rule (text : JsString) (n : Net) :
  (Forall (fun c => is_whitespace c = true) text ->
   generateSpeech env text n = (Raised TextIsEmpty, n)) /\
  (Exists (fun c => is_whitespace c = false) text ->
   exists r,
     generateSpeech env text n =
       (r, log_sent (mkCall (lit "gemini-2.5-flash-preview-tts")
                            (Speech (firstn 500 text))) n) /\
     List.length (firstn 500 text) <= 500 /\
     match r with
     | Done bytes => Forall (fun b => (b < 256)%N) bytes
     | Raised e =>
         e = NoAudioGenerated \/ e = InvalidCharacter \/
         exists je, e = Thrown (RemoteError je)
     end).
Proof.
  split; [apply generateSpeech_blank|].
  unfold generateSpeech, client. rewrite Hkey. cbn [negb].
  unfold and_then, unit_, raise.
  - intros H.
    assert (Ht : trim text <> []).
    { intros E. apply trim_nil_iff in E.
      apply Exists_exists in H. destruct H as (c & Hin & Hc).
      rewrite Forall_forall in E. specialize (E c Hin). congruence. }
    assert (truthy text = true) as ->.
    { destruct text; [now inversion H | reflexivity]. }
    assert (Nat.eqb (List.length (trim text)) 0 = false) as ->.
    { destruct (trim text); [congruence | reflexivity]. }
    cbn [negb orb]. unfold call.
    destruct (respond env (sent n) _) as [a|e].
    + destruct (a_parts a) as [|[[d|]] ps]; cbn [inlineData truthy_opt negb].
      * eexists. split; [reflexivity|]. split; [apply firstn_le_length|]. auto.
      * destruct (truthy d); cbn [negb].
        -- destruct (atob env d) as [b|].
           ++ eexists. split; [reflexivity|].
              split; [apply firstn_le_length|].
              unfold toBytes. apply Forall_forall. intros x Hx.
              apply in_map_iff in Hx. destruct Hx as (c & <- & _).
              apply N.mod_lt. discriminate.
           ++ eexists. split; [reflexivity|].
              split; [apply firstn_le_length|]. auto.
        -- eexists. split; [reflexivity|].
           split; [apply firstn_le_length|]. auto.
      * eexists. split; [reflexivity|]. split; [apply firstn_le_length|]. auto.
    + eexists. split; [reflexivity|]. split; [apply firstn_le_length|].
      right. right. eauto.
Qed.

(** X17: [generateMathVisual] with an API key, unlike [generateSlideImage],
    lets errors through: it sends one request with the chosen size; when
    that is refused with status 403 or 404 or a PERMISSION_DENIED message
    it sends the request to the other model without size, and the outcome
    of that one, error included, is the outcome; any other refusal is
    thrown again. *)
Theorem math_visual_retry_rule (prompt size : JsString) (n : Net) :
  let first := mkCall (lit "gemini-3-pro-image-preview")
                      (Visual prompt (Some size)) in
  let second := mkCall (lit "gemini-2.5-flash-image") (Visual prompt None) in
  generateMathVisual env prompt size n =
  match respond env (sent n) first with
  | Answered a => (Done (extractImageFromParts (a_parts a)), log_sent first n)
  | Refused e =>
      if retried e then
        match respond env (sent n ++ [first]) second with
        | Answered a =>
            (Done (extractImageFromParts (a_parts a)),
             log_sent second (log_line warn_visual_fallback (log_sent first n)))
        | Refused e2 =>
            (Raised (Thrown (RemoteError e2)),
             log_sent second (log_line warn_visual_fallback (log_sent first n)))
        end
      else (Raised (Thrown (RemoteError e)), log_sent first n)
  end.
Proof.
  cbv zeta. unfold generateMathVisual, client. rewrite Hkey. cbn [negb].
  unfold and_then, catch, unit_, raise, update, call.
  destruct (respond env (sent n) _) as [a|e]; [reflexivity|].
  unfold permissionDenied. fold (retried e).
  destruct (retried e); [|reflexivity].
  cbn [sent log_line log_sent].
  destruct (respond env (sent n ++ _) _) as [a|e2]; reflexivity.
Qed.

End WithKey.

Lemma speech_text_rule_witness :
  generateSpeech sampleChatEnv (lit "  ") (mkNet [] []) =
    (Raised TextIsEmpty, mkNet [] []) /\
  exists r,
    generateSpeech sampleChatEnv (lit "two") (mkNet [] []) =
      (r, mkNet [mkCall (lit "gemini-2.5-flash-preview-tts")
                        (Speech (lit "two"))] []).
Proof.
  destruct (speech_text_rule sampleChatEnv eq_refl (lit "  ") (mkNet [] []))
    as [Hblank _].
  destruct (speech_text_rule sampleChatEnv eq_refl (lit "two") (mkNet [] []))
    as [_ Hsent].
  split; [apply Hblank; repeat constructor|].
  destruct Hsent as (r & Hrun & _); [left; reflexivity|].
  exists r. exact Hrun.
Defined.

Lemma math_visual_retry_rule_witness :
  generateMathVisual sampleChatEnv (lit "a circle") (lit "2K") (mkNet [] []) =
  (Done (Some (dataUrl (lit "AAAA"))),
   mkNet [mkCall (lit "gemini-3-pro-image-preview")
                 (Visual (lit "a circle") (Some (lit "2K")));
          mkCall (lit "gemini-2.5-flash-image")
                 (Visual (lit "a circle") None)]
         [warn_visual_fallback]).
Proof.
  rewrite (math_visual_retry_rule sampleChatEnv eq_refl (lit "a circle")
             (lit "2K") (mkNet [] [])).
  reflexivity.
Defined.

End ServiceFacts.

(* ================================================================== *)
(** ** Sending a message, uploading a file, reading aloud *)
(* ================================================================== *)

Module ChatFacts.
Import Js Pptx Deck Runtime Gemini App Layout Geometry Services Chat Bubble
       Samples.
Local Open Scope list_scope.

(** Run the straight-line part of a computation of the chat. *)
Ltac run_chat :=
  cbv beta iota zeta delta
    [and_then catch finally update unit_ raise zoom
     onNet onWorld now Chat.addMessage Chat.aiMessage
     handleStandardFlow standardBody handleSendMessage handleFileUpload
     handleKeyDown fileToBase64 textOrUndefined
     set_inputText set_chat set_fileInputValue set_net set_world
     view inputText chat visualSize explorerMode fileInputValue net world
     setIsLoading tick ticks isLoading presentationStep presentationTopic
     messages requests console files log_line sent logged
     ViewState_eqb negb fst snd].

(** The same, up to the call of the flow of the view. *)
Ltac run_send :=
  cbv beta iota zeta delta
    [and_then update unit_ now Chat.addMessage
     set_inputText set_chat set_world
     view inputText chat visualSize explorerMode fileInputValue net world].

(** Close the goals about a session after a run: the chats view by view
    first, then the rest. *)
Ltac settle :=
  cbn; repeat split;
  try (intros []; cbn; now rewrite <- ?app_assoc, ?app_nil_r);
  rewrite ?app_nil_r, <- ?app_assoc; auto;
  try lia; try discriminate; try contradiction; try reflexivity.

(** What [handleStandardFlow] does in every view and whatever the service
    does: it does not throw, adds one message of the assistant to the chat
    of the view the handler was created in, and leaves the component not
    loading and the presentation flow as it was. *)
Lemma standard_flow_outcome (env : ChatEnv) (snap : Session)
    (userText : JsString) (s : Session) :
  exists reply s',
    handleStandardFlow env snap userText s = (Done tt, s') /\
    (forall v, chat s' v =
               chat s v ++ (if ViewState_eqb v (view snap) then [reply] else [])) /\
    cm_sender reply = AI /\
    isLoading (world s') = false /\
    ticks (world s') = ticks (world s) + 2 /\
    view s' = view s /\ inputText s' = inputText s /\
    presentationStep (world s') = presentationStep (world s) /\
    presentationTopic (world s') = presentationTopic (world s) /\
    files (world s') = files (world s) /\
    requests (world s') = requests (world s).
Proof.
  destruct s as [v it ch vs em fv nt [st tp ms ld rq cn fl tk]].
  destruct snap as [v0 it0 ch0 vs0 em0 fv0 nt0 w0].
  destruct v0; run_chat.
  - destruct (generateDeepTutorResponse env userText _ nt) as [[a|e] n'];
      run_chat; do 2 eexists; (split; [reflexivity|]); settle.
  - destruct (generateMathVisual env userText vs0 nt) as [[a|e] n'];
      run_chat; [destruct (truthy_opt a); run_chat|];
      do 2 eexists; (split; [reflexivity|]); settle.
  - destruct (solveMathProblem env (Some []) (TypedPrompt userText) nt)
      as [[a|e] n'];
      run_chat; do 2 eexists; (split; [reflexivity|]); settle.
  - destruct (quickExplain env userText _ nt) as [[[t srcs]|e] n'];
      run_chat; do 2 eexists; (split; [reflexivity|]); settle.
  - do 2 eexists. (split; [reflexivity|]); settle.
Qed.

Lemma not_blank (t : JsString) :
  Exists (fun c => is_whitespace c = false) t -> truthy (trim t) = true.
Proof.
  intros H. destruct (trim t) eqn:E; [|reflexivity].
  apply ServiceFacts.trim_nil_iff in E.
  apply Exists_exists in H. destruct H as (c & Hin & Hc).
  rewrite Forall_forall in E. specialize (E c Hin). congruence.
Qed.

Lemma blank (t : JsString) :
  Forall (fun c => is_whitespace c = true) t -> truthy (trim t) = false.
Proof.
  intros H. apply ServiceFacts.trim_nil_iff in H. now rewrite H.
Qed.

(** X18: A text of white space only (or no text) is not sent: the component
    stays exactly as it is, in every view, also in the solver view where
    the button is enabled; a key other than Enter, or Enter with Shift,
    sends nothing either. *)
Theorem blank_input_is_ignored (env : ChatEnv) (s : Session)
    (key : JsString) :
  Forall (fun c => is_whitespace c = true) (inputText s) ->
  handleSendMessage env s = (Done tt, s) /\
  handleKeyDown env key false s = (Done tt, s) /\
  (forall t, handleKeyDown env key true (set_inputText t s) =
             (Done tt, set_inputText t s)).
Proof.
  intros H. apply blank in H.
  assert (Hsend : handleSendMessage env s = (Done tt, s))
    by (unfold handleSendMessage; rewrite H; reflexivity).
  split; [exact Hsend | split].
  - unfold handleKeyDown. destruct (str_eqb key (lit "Enter") && negb false);
      [exact Hsend | reflexivity].
  - intros t. unfold handleKeyDown. rewrite andb_false_r. reflexivity.
Qed.

Lemma blank_input_is_ignored_witness :
  handleSendMessage sampleChatEnv (sampleSession SOLVER (lit "  ")) =
  (Done tt, sampleSession SOLVER (lit "  ")).
Proof.
  apply (blank_input_is_ignored sampleChatEnv (sampleSession SOLVER (lit "  "))
           (lit "Enter")).
  repeat constructor.
Defined.

(** X19: Outside the presentation view, sending a text that is not blank never
    throws, whatever the service does, with or without API key: the chat
    of the current view gets the user's message with the text as typed
    (not trimmed) and then exactly one message of the assistant; the other
    chats are untouched, the input box is emptied, the component is not
    loading afterwards and the presentation flow is where it was. *)
Theorem send_adds_message_and_reply (env : ChatEnv) (s : Session) :
  view s <> PRESENTATION ->
  Exists (fun c => is_whitespace c = false) (inputText s) ->
  exists reply s',
    handleSendMessage env s = (Done tt, s') /\
    chat s' (view s) =
      chat s (view s) ++
      [mkChatMessage (dateNow (flowEnv env) (ticks (world s))) USER
         (Str (inputText s)) None
         (dateNow (flowEnv env) (S (ticks (world s)))) None;
       reply] /\
    cm_sender reply = AI /\
    (forall v, v <> view s -> chat s' v = chat s v) /\
    inputText s' = [] /\
    view s' = view s /\
    isLoading (world s') = false /\
    presentationStep (world s') = presentationStep (world s) /\
    files (world s') = files (world s) /\
    requests (world s') = requests (world s).
Proof.
  intros Hview Hinput. apply not_blank in Hinput.
  destruct s as [v it ch vs em fv nt w].
  cbn [view inputText] in Hview, Hinput.
  unfold handleSendMessage.
  cbn [inputText view]. rewrite Hinput. cbn [negb].
  assert (ViewState_eqb v PRESENTATION = false) as ->
    by (destruct v; try reflexivity; now contradiction Hview).
  run_send.
  match goal with
  | |- context [handleStandardFlow env ?snap ?t ?s1] =>
      destruct (standard_flow_outcome env snap t s1)
        as (reply & s' & -> & Hchat & Hai & Hload & _ & Hview' & Hin
            & Hstep & _ & Hfiles & Hreq)
  end.
  exists reply, s'. split; [reflexivity|].
  cbn in Hchat, Hview', Hin, Hstep, Hfiles, Hreq.
  split.
  { rewrite Hchat. destruct v; cbn; rewrite <- ?app_assoc; try reflexivity;
      try (now contradiction Hview). }
  split; [exact Hai|]. split.
  { intros v1 Hne. rewrite Hchat.
    destruct v1, v; cbn; rewrite ?app_nil_r; try reflexivity;
      try (now contradiction Hne). }
  cbn. repeat split; auto.
Qed.

Lemma send_adds_message_and_reply_witness :
  exists s',
    handleSendMessage noKeyChatEnv (sampleSession TUTOR (lit " why? ")) =
      (Done tt, s') /\
    map cm_text (chat s' TUTOR) =
      [Str (lit "hello"); Str (lit " why? "); Fixed SomethingWrong].
Proof.
  destruct (send_adds_message_and_reply noKeyChatEnv
              (sampleSession TUTOR (lit " why? ")))
    as (reply & s' & Hrun & _); [discriminate | right; left; reflexivity|].
  exists s'. split; [exact Hrun|].
  vm_compute in Hrun. injection Hrun as <-. reflexivity.
Defined.

(** Run the services down to the replies. *)
Ltac run_services :=
  cbv beta iota zeta delta
    [generateDeepTutorResponse generateMathVisual solveMathProblem
     quickExplain client call and_then catch unit_ raise update
     log_sent log_line sent logged promptOrDefault negb].

(** X20: In the tutor view the history sent holds the earlier messages of the
    tutor chat in order, each with the role of its sender, followed by the
    text just typed, once; the same text is then sent as the message of
    the chat.  The reply shows the answer, or the error sentence when the
    call is refused. *)
Theorem tutor_history_ends_with_prompt (env : ChatEnv) (s : Session) :
  truthy_opt (apiKey (flowEnv env)) = true ->
  view s = TUTOR ->
  Exists (fun c => is_whitespace c = false) (inputText s) ->
  let history :=
    map historyEntry (chat s TUTOR) ++
    [mkHistoryEntry (lit "user") (Str (inputText s))] in
  let sentCall :=
    mkCall (lit "gemini-3-pro-preview") (TutorChat history (inputText s)) in
  exists userMsg reply s',
    handleSendMessage env s = (Done tt, s') /\
    sent (net s') = sent (net s) ++ [sentCall] /\
    List.length history = S (List.length (chat s TUTOR)) /\
    map entry_text history =
      map cm_text (chat s TUTOR) ++ [Str (inputText s)] /\
    chat s' TUTOR = chat s TUTOR ++ [userMsg; reply] /\
    cm_text reply =
      match respond env (sent (net s)) sentCall with
      | Answered a => textOrUndefined (a_text a)
      | Refused _ => Fixed SomethingWrong
      end.
Proof.
  intros Hkey Hview Hinput. apply not_blank in Hinput.
  destruct s as [v it ch vs em fv [snt lg] [st tp ms ld rq cn fl tk]].
  cbn [view inputText] in Hview, Hinput. subst v.
  cbv zeta. unfold handleSendMessage.
  cbn [inputText view]. rewrite Hinput.
  run_chat. run_services. rewrite Hkey. run_services.
  match goal with
  | |- context [respond env snt ?c] => destruct (respond env snt c) as [a|e]
  end; run_chat; run_services;
    do 3 eexists; (split; [reflexivity|]); cbn;
    (split; [reflexivity|]);
    (split; [rewrite length_app, length_map; cbn; lia|]);
    (split; [rewrite map_app, map_map; reflexivity|]);
    (split; [rewrite <- app_assoc; reflexivity | reflexivity]).
Qed.

Lemma tutor_history_ends_with_prompt_witness :
  exists s',
    handleSendMessage sampleChatEnv (sampleSession TUTOR (lit "why?")) =
      (Done tt, s') /\
    sent (net s') =
      [mkCall (lit "gemini-3-pro-preview")
         (TutorChat [mkHistoryEntry (lit "model") (Str (lit "hello"));
                     mkHistoryEntry (lit "user") (Str (lit "why?"))]
                    (lit "why?"))].
Proof.
  destruct (tutor_history_ends_with_prompt sampleChatEnv
              (sampleSession TUTOR (lit "why?")) eq_refl eq_refl)
    as (userMsg & reply & s' & Hrun & Hsent & _);
    [left; reflexivity|].
  exists s'. split; [exact Hrun | exact Hsent].
Defined.

(** X21: In the visualizer view the reply is a picture message (the caption
    with the size and the prompt, and the image) exactly when
    [generateMathVisual] delivers an image; without image it is the
    sentence that no image could be created, and when the service call
    throws it is the error sentence; the size asked for is the one
    selected. *)
Theorem visualizer_reply (env : ChatEnv) (s : Session)
    (r : Result (option JsString)) (n' : Net) :
  view s = VISUALIZER ->
  Exists (fun c => is_whitespace c = false) (inputText s) ->
  generateMathVisual env (inputText s) (visualSize s) (net s) = (r, n') ->
  exists userMsg reply s',
    handleSendMessage env s = (Done tt, s') /\
    chat s' VISUALIZER = chat s VISUALIZER ++ [userMsg; reply] /\
    cm_text userMsg = Str (inputText s) /\
    (cm_text reply, cm_image reply) =
      match r with
      | Done img =>
          if truthy_opt img
          then (Caption (visualSize s) (inputText s), img)
          else (Fixed NoImageCreated, None)
      | Raised _ => (Fixed SomethingWrong, None)
      end /\
    sent (net s') = sent n' /\
    isLoading (world s') = false.
Proof.
  intros Hview Hinput Hrun. apply not_blank in Hinput.
  destruct s as [v it ch vs em fv nt [st tp ms ld rq cn fl tk]].
  cbn [view inputText visualSize net] in Hview, Hinput, Hrun. subst v.
  unfold handleSendMessage. cbn [inputText view]. rewrite Hinput.
  run_chat. rewrite Hrun. run_chat.
  destruct r as [img|e]; run_chat; [destruct (truthy_opt img); run_chat|];
    do 3 eexists; (split; [reflexivity|]); cbn;
    (split; [rewrite <- app_assoc; reflexivity|]); repeat split.
Qed.

Lemma visualizer_reply_witness :
  exists userMsg reply s',
    handleSendMessage sampleChatEnv (sampleSession VISUALIZER (lit "a circle")) =
      (Done tt, s') /\
    chat s' VISUALIZER =
      chat (sampleSession VISUALIZER (lit "a circle")) VISUALIZER ++
      [userMsg; reply] /\
    cm_image reply = Some (dataUrl (lit "AAAA")).
Proof.
  destruct (visualizer_reply sampleChatEnv
              (sampleSession VISUALIZER (lit "a circle"))
              (Done (Some (dataUrl (lit "AAAA"))))
              (mkNet [mkCall (lit "gemini-3-pro-image-preview")
                        (Visual (lit "a circle") (Some (lit "1K")));
                      mkCall (lit "gemini-2.5-flash-image")
                        (Visual (lit "a circle") None)]
                     [warn_visual_fallback])
              eq_refl)
    as (userMsg & reply & s' & Hrun & Hchat & _ & Hreply & _);
    [left; reflexivity | reflexivity |].
  exists userMsg, reply, s'. split; [exact Hrun | split; [exact Hchat|]].
  cbn in Hreply. now injection Hreply.
Defined.

(** X22: In the explorer view, with an API key, one call is sent: with the
    search tool to one model in search mode, without it to another model
    in fast mode.  The reply shows the text of the answer, or a fixed
    sentence when the answer has no text or an empty one; its sources are
    the web entries of the grounding chunks, in order, in search mode, and
    an empty list in fast mode. *)
Theorem explorer_reply (env : ChatEnv) (s : Session) (a : Answer) :
  truthy_opt (apiKey (flowEnv env)) = true ->
  view s = EXPLORER ->
  Exists (fun c => is_whitespace c = false) (inputText s) ->
  let sentCall :=
    match explorerMode s with
    | search => mkCall (lit "gemini-2.5-flash") (Explain (inputText s) true)
    | fast =>
        mkCall (lit "gemini-flash-lite-latest") (Explain (inputText s) false)
    end in
  respond env (sent (net s)) sentCall = Answered a ->
  exists userMsg reply s',
    handleSendMessage env s = (Done tt, s') /\
    sent (net s') = sent (net s) ++ [sentCall] /\
    chat s' EXPLORER = chat s EXPLORER ++ [userMsg; reply] /\
    cm_text reply =
      (if truthy_opt (a_text a) then textOrUndefined (a_text a)
       else Fixed NoResponse) /\
    cm_image reply = None /\
    cm_sources reply =
      Some (match explorerMode s with
            | search => webSources (a_chunks a)
            | fast => []
            end) /\
    List.length (webSources (a_chunks a)) <= List.length (a_chunks a) /\
    (forall src, In src (webSources (a_chunks a)) <->
                 In (mkChunk (Some src)) (a_chunks a)).
Proof.
  intros Hkey Hview Hinput. cbv zeta. intros Hresp.
  apply not_blank in Hinput.
  destruct s as [v it ch vs em fv [snt lg] [st tp ms ld rq cn fl tk]].
  cbn [view inputText explorerMode net sent] in Hview, Hinput, Hresp. subst v.
  unfold handleSendMessage. cbn [inputText view explorerMode]. rewrite Hinput.
  assert (Hsrc : List.length (webSources (a_chunks a)) <=
                   List.length (a_chunks a) /\
                 (forall src, In src (webSources (a_chunks a)) <->
                              In (mkChunk (Some src)) (a_chunks a))).
  { clear. induction (a_chunks a) as [|[[[u t]|]] cs [IHl IHi]]; cbn.
    - split; [lia | tauto].
    - split; [lia|]. intros src. rewrite IHi. split.
      + intros [<- | H]; [now left | now right].
      + intros [H | H]; [injection H as <-; now left | now right].
    - split; [lia|]. intros src. rewrite IHi. split.
      + intros H; now right.
      + intros [H | H]; [discriminate | exact H]. }
  destruct em; run_chat; run_services; rewrite Hkey; run_services;
    rewrite Hresp; run_chat; run_services;
    do 3 eexists; (split; [reflexivity|]); cbn;
    (split; [reflexivity|]);
    (split; [rewrite <- app_assoc; reflexivity|]);
    (split; [reflexivity|]); (split; [reflexivity|]);
    (split; [reflexivity | exact Hsrc]).
Qed.

Lemma explorer_reply_witness :
  exists userMsg reply s',
    handleSendMessage sampleChatEnv (sampleSession EXPLORER (lit "pi")) =
      (Done tt, s') /\
    chat s' EXPLORER =
      chat (sampleSession EXPLORER (lit "pi")) EXPLORER ++ [userMsg; reply] /\
    cm_sources reply =
      Some [mkSource (lit "https://a.example") (lit "A")].
Proof.
  destruct (explorer_reply sampleChatEnv (sampleSession EXPLORER (lit "pi"))
              (mkAnswer (Some (lit "ok")) []
                 [mkChunk (Some (mkSource (lit "https://a.example") (lit "A")));
                  mkChunk None])
              eq_refl eq_refl)
    as (userMsg & reply & s' & Hrun & _ & Hchat & _ & _ & Hsrc & _);
    [left; reflexivity | reflexivity |].
  exists userMsg, reply, s'. repeat split; assumption.
Defined.

(** X23: In the solver view a typed text is sent with an empty image and as
    the prompt itself: the built-in instructions replace an empty prompt
    only, and a sent text is never empty. *)
Theorem solver_sends_typed_prompt (env : ChatEnv) (s : Session) :
  truthy_opt (apiKey (flowEnv env)) = true ->
  view s = SOLVER ->
  Exists (fun c => is_whitespace c = false) (inputText s) ->
  (exists s',
     handleSendMessage env s = (Done tt, s') /\
     sent (net s') =
       sent (net s) ++
       [mkCall (lit "gemini-3-pro-preview")
          (Solve (Some []) (TypedPrompt (inputText s)))]) /\
  (forall img n, exists r,
     solveMathProblem env img (TypedPrompt []) n =
     (r, log_sent (mkCall (lit "gemini-3-pro-preview")
                     (Solve img DefaultInstructions)) n)).
Proof.
  intros Hkey Hview Hinput.
  assert (Hne : truthy (inputText s) = true).
  { destruct (inputText s); [now inversion Hinput | reflexivity]. }
  apply not_blank in Hinput. split.
  - destruct s as [v it ch vs em fv [snt lg] [st tp ms ld rq cn fl tk]].
    cbn [view inputText net sent] in Hview, Hinput, Hne. subst v.
    unfold handleSendMessage. cbn [inputText view]. rewrite Hinput.
    run_chat. run_services. rewrite Hkey, Hne. run_services.
    match goal with
    | |- context [respond env snt ?c] => destruct (respond env snt c) as [a|e]
    end; run_chat; run_services; eexists; split; reflexivity.
  - intros img n. unfold solveMathProblem.
    run_services. rewrite Hkey. run_services. cbn [truthy].
    destruct (respond env _ _); eexists; reflexivity.
Qed.

Lemma solver_sends_typed_prompt_witness :
  exists s',
    handleSendMessage sampleChatEnv (sampleSession SOLVER (lit "x+1=2")) =
      (Done tt, s') /\
    sent (net s') =
      [mkCall (lit "gemini-3-pro-preview")
         (Solve (Some []) (TypedPrompt (lit "x+1=2")))].
Proof.
  destruct (solver_sends_typed_prompt sampleChatEnv
              (sampleSession SOLVER (lit "x+1=2")) eq_refl eq_refl)
    as ((s' & Hrun & Hsent) & _); [left; reflexivity|].
  exists s'. split; [exact Hrun | exact Hsent].
Defined.

Lemma skipn_own_length {A} (l x : list A) :
  skipn (List.length l) (l ++ x) = x.
Proof. induction l; cbn; auto. Qed.

(** X24: In the presentation view, sending a text that is not blank hands the
    text as typed to the presentation flow, which runs on the shared state
    after the two reads of the clock for the user's message: the chat of
    the presentation view gets the user's message followed by the
    messages of the flow, the other chats and the network of the other
    services are untouched, the input box is emptied. *)
Theorem presentation_send_runs_flow (env : ChatEnv) (s : Session) :
  view s = PRESENTATION ->
  Exists (fun c => is_whitespace c = false) (inputText s) ->
  exists news w' s',
    handlePresentationFlow (flowEnv env) (inputText s)
      (tick (tick (world s))) = (Ok tt, w') /\
    handleSendMessage env s = (Done tt, s') /\
    world s' = w' /\
    messages w' PRESENTATION = messages (world s) PRESENTATION ++ news /\
    chat s' PRESENTATION =
      chat s PRESENTATION ++
      mkChatMessage (dateNow (flowEnv env) (ticks (world s))) USER
        (Str (inputText s)) None
        (dateNow (flowEnv env) (S (ticks (world s)))) None
      :: map ofFlow news /\
    (forall v, v <> PRESENTATION -> chat s' v = chat s v) /\
    inputText s' = [] /\
    net s' = net s.
Proof.
  intros Hview Hinput. apply not_blank in Hinput.
  destruct s as [v it ch vs em fv nt w].
  cbn [view inputText world net chat] in *. subst v.
  destruct (FlowMore.flow_outcome (flowEnv env) it (tick (tick w)))
    as (news & fs & rs & w' & Hrun & _ & Hmsg & _).
  exists news, w'. eexists. split; [exact Hrun|].
  unfold handleSendMessage. cbn [inputText view]. rewrite Hinput.
  cbn [negb ViewState_eqb]. run_send. unfold liftFlow.
  cbn [world]. rewrite Hrun.
  split; [reflexivity|]. cbn [world chat inputText net set_chat set_world].
  split; [reflexivity|].
  assert (Hw : forall v, messages (tick (tick w)) v = messages w v)
    by (intros; destruct w; reflexivity).
  split; [rewrite Hmsg, Hw; reflexivity|].
  split.
  { rewrite Hmsg, skipn_own_length. cbn [ViewState_eqb].
    now rewrite <- app_assoc. }
  split; [|split; reflexivity].
  intros v Hv. rewrite Hmsg, skipn_own_length.
  destruct v; cbn; rewrite ?app_nil_r; try reflexivity.
  now contradiction Hv.
Qed.

Lemma presentation_send_runs_flow_witness :
  exists s',
    handleSendMessage sampleChatEnv (sampleSession PRESENTATION (lit " Sets ")) =
      (Done tt, s') /\
    presentationTopic (world s') = lit " Sets " /\
    map cm_text (chat s' PRESENTATION) =
      [Str (lit "hello"); Str (lit " Sets "); OfFlow (AskCount (lit " Sets "))].
Proof.
  destruct (presentation_send_runs_flow sampleChatEnv
              (sampleSession PRESENTATION (lit " Sets ")) eq_refl)
    as (news & w' & s' & _ & Hrun & _); [right; left; reflexivity|].
  exists s'. split; [exact Hrun|].
  vm_compute in Hrun. injection Hrun as <-. split; reflexivity.
Defined.

Lemma has_comma_app (a b : JsString) :
  has_comma (a ++ b) = has_comma a || has_comma b.
Proof. unfold has_comma. apply existsb_app. Qed.

(** X25: Uploading a file the reader turns into the data URL of its type and a
    base64 payload: the user's message shows exactly the reader's data
    URL, the payload alone goes to the service with the fixed request to
    solve the image, the chat gets the user's message and one reply, the
    component is not loading afterwards and the file input is reset. *)
Theorem upload_round_trip (env : ChatEnv) (s : Session) (file : File)
    (payload : JsString) :
  truthy_opt (apiKey (flowEnv env)) = true ->
  has_comma (file_type file) = false ->
  has_comma payload = false ->
  readAsDataURL file =
    Some (lit "data:" ++ file_type file ++ lit ";base64," ++ payload) ->
  exists userMsg reply s',
    handleFileUpload env (Some file) s = (Done tt, s') /\
    chat s' (view s) = chat s (view s) ++ [userMsg; reply] /\
    cm_sender userMsg = USER /\
    cm_image userMsg = readAsDataURL file /\
    cm_sender reply = AI /\
    sent (net s') =
      sent (net s) ++
      [mkCall (lit "gemini-3-pro-preview")
         (Solve (Some payload) SolveTheImage)] /\
    isLoading (world s') = false /\
    fileInputValue s' = [].
Proof.
  intros Hkey Htype Hpayload Hread.
  assert (Hsplit : nth_error
            (split 44%N (lit "data:" ++ file_type file ++ lit ";base64," ++ payload))
            1 = Some payload).
  { replace (lit "data:" ++ file_type file ++ lit ";base64," ++ payload)
      with ((lit "data:" ++ file_type file ++ lit ";base64") ++ 44%N :: payload)
      by (rewrite <- !app_assoc; reflexivity).
    rewrite ServiceFacts.split_at_comma, (ServiceFacts.split_no_comma _ Hpayload);
      [reflexivity|].
    rewrite !has_comma_app, Htype. reflexivity. }
  destruct s as [v it ch vs em fv [snt lg] [st tp ms ld rq cn fl tk]].
  destruct file as [ty rd]. cbn [file_type readAsDataURL] in *. subst rd.
  unfold handleFileUpload. cbn [readAsDataURL file_type].
  run_chat. rewrite Hsplit. run_chat. run_services. rewrite Hkey.
  run_services.
  match goal with
  | |- context [respond env snt ?c] => destruct (respond env snt c) as [a|e]
  end; run_chat; run_services;
    do 3 eexists; (split; [reflexivity|]); cbn;
    (split; [destruct v; cbn; rewrite <- ?app_assoc; reflexivity|]);
    repeat split.
Qed.

Lemma upload_round_trip_witness :
  exists userMsg reply s',
    handleFileUpload sampleChatEnv (Some samplePng)
      (sampleSession SOLVER []) = (Done tt, s') /\
    chat s' SOLVER =
      chat (sampleSession SOLVER []) SOLVER ++ [userMsg; reply] /\
    cm_image userMsg = Some (lit "data:image/png;base64,iVBORw0KGgo=").
Proof.
  destruct (upload_round_trip sampleChatEnv (sampleSession SOLVER [])
              samplePng (lit "iVBORw0KGgo=") eq_refl eq_refl eq_refl eq_refl)
    as (userMsg & reply & s' & Hrun & Hchat & _ & Himg & _).
  exists userMsg, reply, s'. split; [exact Hrun | split; [exact Hchat|]].
  exact Himg.
Defined.

(** X26: Without a chosen file the upload handler does nothing.  When the
    reader fails, nothing is sent to the service: the chat gets the
    sentence that the image could not be processed, the error goes to the
    console, the component is not loading afterwards and the file input is
    reset. *)
Theorem upload_without_data (env : ChatEnv) (s : Session) (file : File) :
  readAsDataURL file = None ->
  handleFileUpload env None s = (Done tt, s) /\
  exists reply s',
    handleFileUpload env (Some file) s = (Done tt, s') /\
    (forall v, chat s' v =
               chat s v ++ (if ViewState_eqb v (view s) then [reply] else [])) /\
    cm_text reply = Fixed ImageFailed /\
    cm_sender reply = AI /\
    net s' = log_line (error_upload ReaderError) (net s) /\
    isLoading (world s') = false /\
    fileInputValue s' = [].
Proof.
  intros Hread. split; [reflexivity|].
  destruct s as [v it ch vs em fv [snt lg] [st tp ms ld rq cn fl tk]].
  destruct file as [ty rd]. cbn [readAsDataURL] in Hread. subst rd.
  unfold handleFileUpload. cbn [readAsDataURL file_type]. run_chat.
  do 2 eexists. split; [reflexivity|]. cbn.
  split; [intros []; destruct v; cbn; rewrite ?app_nil_r; reflexivity|].
  repeat split.
Qed.

Lemma upload_without_data_witness :
  exists s',
    handleFileUpload sampleChatEnv (Some unreadableFile)
      (sampleSession SOLVER []) = (Done tt, s') /\
    sent (net s') = [] /\
    map cm_text (chat s' SOLVER) = [Str (lit "hello"); Fixed ImageFailed].
Proof.
  destruct (upload_without_data sampleChatEnv (sampleSession SOLVER [])
              unreadableFile eq_refl)
    as (_ & reply & s' & Hrun & _).
  exists s'. split; [exact Hrun|].
  vm_compute in Hrun. injection Hrun as <-. split; reflexivity.
Defined.

(** X27: Reading a message aloud: while a playback is on, the handler does
    nothing; otherwise it never throws and leaves the bubble not loading;
    the bubble is playing afterwards exactly when a buffer was started;
    and with an API key a message made of mark-up characters and white
    space only is never sent to the service. *)
Theorem speak_outcome (env : ChatEnv) (text : JsString) (st : Bubble.State) :
  (isPlaying st = true -> handleSpeak env text st = (Done tt, st)) /\
  (isPlaying st = false ->
   exists st',
     handleSpeak env text st = (Done tt, st') /\
     loadingAudio st' = false /\
     (if isPlaying st'
      then exists buffer, started st' = started st ++ [buffer]
      else started st' = started st)) /\
  (isPlaying st = false ->
   truthy_opt (apiKey (flowEnv env)) = true ->
   Forall (fun c => is_markup c = true \/ is_whitespace c = true) text ->
   handleSpeak env text st =
     (Done tt,
      mkState false false (started st)
        (log_line (error_tts TextIsEmpty) (bubbleNet st)))).
Proof.
  destruct st as [pl ld sd nt]. cbn [isPlaying started bubbleNet].
  split; [intros ->; reflexivity | split].
  - intros ->. unfold handleSpeak. cbn [isPlaying].
    cbv beta iota zeta delta
      [finally catch and_then update unit_ raise zoom setLoadingAudio
       setIsPlaying start set_bubbleNet isPlaying loadingAudio started
       bubbleNet].
    destruct (generateSpeech env (cleanText text) nt) as [[buf|e] n'];
      cbv beta iota zeta; [destruct (decodeAudioData env buf)|];
      cbv beta iota zeta; eexists; (split; [reflexivity|]); cbn;
      (split; [reflexivity|]); eauto.
  - intros -> Hkey Hall. unfold handleSpeak. cbn [isPlaying].
    cbv beta iota zeta delta
      [finally catch and_then update unit_ raise zoom setLoadingAudio
       setIsPlaying start set_bubbleNet isPlaying loadingAudio started
       bubbleNet].
    rewrite (ServiceFacts.generateSpeech_blank env Hkey); [reflexivity|].
    rewrite ServiceFacts.cleanText_filter.
    induction Hall as [|c t Hc _ IH]; cbn; [constructor|].
    destruct (is_markup c) eqn:M; cbn; [exact IH|].
    constructor; [|exact IH]. destruct Hc; congruence.
Qed.

Lemma speak_outcome_witness :
  handleSpeak sampleChatEnv (lit "** $$ **") idleBubble =
  (Done tt, mkState false false [] (mkNet [] [error_tts TextIsEmpty])).
Proof.
  apply (proj2 (proj2 (speak_outcome sampleChatEnv (lit "** $$ **") idleBubble))
           eq_refl eq_refl).
  repeat constructor; (left; reflexivity) || (right; reflexivity).
Defined.

End ChatFacts.
